(** * NeuroBridge: the risk-assessment pipeline

    A shallow embedding of the logic of [app.py], [utils/data_processing.py]
    and [utils/rag_system.py], and the properties of the specification that
    concern it.

    Numbers.  Python keeps two kinds of numbers apart, [int] and [float]
    (here [numpy.float64]); the code mixes them, and which of the two comes
    out decides whether a score is an integer.  Both kinds are kept in
    [pynum].  A float is idealised as a real number: rounding error of the
    binary64 format is outside this model, and so are NaN and the
    infinities.

    Strings.  A Python [str] is a Rocq [string]; [str.lower] is modelled on
    the ASCII letters, every other character is left as it is. *)

From Stdlib Require Import String Ascii.
From Stdlib Require Import Reals Lra Lia ZArith List Bool DecimalString.
Import ListNotations.

Local Open Scope R_scope.

(** ** Python numbers *)

Inductive pynum : Type :=
| PyInt (z : Z)
| PyFloat (r : R).

Definition value (x : pynum) : R :=
  match x with
  | PyInt z => IZR z
  | PyFloat r => r
  end.

(** [a + b]: an [int] only when both operands are. *)
Definition py_add (a b : pynum) : pynum :=
  match a, b with
  | PyInt x, PyInt y => PyInt (x + y)
  | _, _ => PyFloat (value a + value b)
  end.

(** [a * b], same typing. *)
Definition py_mul (a b : pynum) : pynum :=
  match a, b with
  | PyInt x, PyInt y => PyInt (x * y)
  | _, _ => PyFloat (value a * value b)
  end.

(** The builtin [min(a, b)]: the second argument replaces the first only
    when it is strictly smaller, and the winner keeps its own type. *)
Definition py_min (a b : pynum) : pynum :=
  if Rlt_dec (value b) (value a) then b else a.

(** ** numpy on one-dimensional data *)

Module np.

(** [np.diff(a)]: [out[i] = a[i+1] - a[i]]. *)
Fixpoint diff (a : list R) : list R :=
  match a with
  | x :: ((y :: _) as tl) => (y - x) :: diff tl
  | _ => []
  end.

Definition sum (a : list R) : R := fold_right Rplus 0 a.

Definition len (a : list R) : R := INR (length a).

(** [np.mean(a)]: the sum over the number of elements. *)
Definition mean (a : list R) : R := sum a / len a.

(** [np.var(a)] with the default [ddof=0]:
    [mean(abs(a - a.mean())**2)]. *)
Definition var (a : list R) : R :=
  mean (map (fun x => Rsqr (Rabs (x - mean a))) a).

(** [np.std(a)]: [sqrt(np.var(a))]. *)
Definition std (a : list R) : R := sqrt (var a).

End np.

(** ** utils/data_processing.py *)

Record TimingFeatures : Type := mkFeatures {
  mean_interval : pynum;
  std_interval : pynum;
  risk_contribution : pynum
}.

Definition process_tapping_data (tapping_timestamps : list R) : TimingFeatures :=
  if (length tapping_timestamps <? 2)%nat then
    {| mean_interval := PyInt 0;
       std_interval := PyInt 0;
       risk_contribution := PyInt 0 |}
  else
    let intervals := np.diff tapping_timestamps in
    let mean_interval := np.mean intervals in
    let std_interval := np.std intervals in
    let risk_contribution :=
      py_min (PyInt 50) (py_mul (PyFloat std_interval) (PyInt 100)) in
    {| mean_interval := PyFloat mean_interval;
       std_interval := PyFloat std_interval;
       risk_contribution := risk_contribution |}.

Local Open Scope string_scope.

(** [load_symptom_checklist]: the catalog, a dict in declaration order. *)
Definition load_symptom_checklist : list (string * string) :=
  [ ("tremor", "Do you experience tremors or shaking in your hands, arms, legs, or jaw?");
    ("rigidity", "Do you feel muscle stiffness or resistance to movement?");
    ("bradykinesia", "Do you have slowness of movement or difficulty initiating movement?");
    ("postural", "Do you have trouble with balance or experience falls?");
    ("gait", "Do you have changes in your walking pattern, like shuffling steps or freezing?");
    ("micrographia", "Has your handwriting become smaller or more crowded?");
    ("speech", "Has your speech become softer, monotone, or slurred?");
    ("facial", "Have you noticed reduced facial expression (masked face)?");
    ("sleep", "Do you experience trouble sleeping or excessive daytime sleepiness?");
    ("memory", "Do you have problems with memory or thinking clearly?") ].

Definition catalog_ids : list string := map fst load_symptom_checklist.

(** ** Python containers and strings *)

(** A [dict] with string keys keeps its items in insertion order. *)
Definition dict (V : Type) : Type := list (string * V).

Definition keys {V} (d : dict V) : list string := map fst d.
Definition values {V} (d : dict V) : list V := map snd d.

Fixpoint dict_get {V} (d : dict V) (k : string) : option V :=
  match d with
  | [] => None
  | (k', v) :: d' => if String.eqb k' k then Some v else dict_get d' k
  end.

(** [d[k] = v]: an existing key keeps its place, a new one goes last. *)
Fixpoint dict_set {V} (d : dict V) (k : string) (v : V) : dict V :=
  match d with
  | [] => [(k, v)]
  | (k', v') :: d' =>
      if String.eqb k' k then (k', v) :: d' else (k', v') :: dict_set d' k v
  end.

(** What makes an association list a [dict]: no key twice. *)
Definition well_formed {V} (d : dict V) : Prop := NoDup (keys d).

Definition lower_char (c : ascii) : ascii :=
  let n := nat_of_ascii c in
  if ((65 <=? n) && (n <=? 90))%nat then ascii_of_nat (n + 32) else c.

(** [str.lower], on ASCII. *)
Fixpoint lower (s : string) : string :=
  match s with
  | EmptyString => EmptyString
  | String c s' => String (lower_char c) (lower s')
  end.

(** [needle in hay]. *)
Fixpoint contains (needle hay : string) : bool :=
  String.prefix needle hay ||
  match hay with
  | EmptyString => false
  | String _ hay' => contains needle hay'
  end.

Fixpoint split_on (sep : ascii) (s : string) : list string :=
  match s with
  | EmptyString => [EmptyString]
  | String c s' =>
      if Ascii.eqb c sep then EmptyString :: split_on sep s'
      else match split_on sep s' with
           | hd :: tl => String c hd :: tl
           | [] => [String c EmptyString]
           end
  end.

(** [re.search(pattern, s)] for the patterns of this program, which are
    alternations of literal words: some alternative occurs in [s]. *)
Definition re_search (pattern s : string) : bool :=
  existsb (fun alt => contains alt s) (split_on "|"%char pattern).

(** ** The pseudo-random generator *)

(** The state of [random]: the numbers it will draw, and how many were
    drawn. *)
Record rng : Type := mkRng {
  draws : nat -> nat;
  cursor : nat
}.

(** ** Session state, page and script monad *)

Record message : Type := mkMessage {
  role : string;
  content : string
}.

(** [st.session_state].  [messages] is absent until the assistant page
    creates it. *)
Record session : Type := mkSession {
  risk_score : option pynum;
  symptoms : dict string;
  tapping_data : option (list R);
  report_generated : bool;
  messages : option (list message)
}.

(** What a run of the script puts on the page.  Fixed copy ([st.write],
    [st.markdown] of constant text, [st.image]) is not recorded. *)
Inductive ui_event : Type :=
| Header (s : string)
| Subheader (s : string)
| Info (s : string)
| Warning (s : string)
| Success (s : string)
| Error (s : string)
| Balloons
| Divider
| Metric (label v : string)
| Chart (title : string) (ys : list R)
| ChatMessage (role content : string)
| Json (body : string)
| DownloadButton (label data file_name mime : string).

Inductive exn : Type :=
| AttributeError (attr : string)
| IndexError
| RerunException.

Inductive outcome (A : Type) : Type :=
| Ok (a : A)
| Raise (e : exn).
Arguments Ok {A} a.
Arguments Raise {A} e.

Record world : Type := mkWorld {
  session_state : session;
  random : rng;
  page : list ui_event
}.

Definition M (A : Type) : Type := world -> outcome A * world.

Definition ret {A} (a : A) : M A := fun w => (Ok a, w).

Definition bind {A B} (c : M A) (k : A -> M B) : M B :=
  fun w =>
    match c w with
    | (Ok a, w') => k a w'
    | (Raise e, w') => (Raise e, w')
    end.

Definition raise {A} (e : exn) : M A := fun w => (Raise e, w).

Declare Scope script_scope.
Delimit Scope script_scope with script.
Notation "x <- c ;; k" := (bind c (fun x => k))
  (at level 61, c at next level, right associativity) : script_scope.
Notation "c ;; k" := (bind c (fun _ => k))
  (at level 61, right associativity) : script_scope.
Local Open Scope script_scope.

Definition emit (e : ui_event) : M unit :=
  fun w => (Ok tt, {| session_state := session_state w;
                      random := random w;
                      page := page w ++ [e] |}).

Definition get_session : M session := fun w => (Ok (session_state w), w).

Definition put_session (s : session) : M unit :=
  fun w => (Ok tt, {| session_state := s; random := random w; page := page w |}).

Definition modify_session (f : session -> session) : M unit :=
  s <- get_session ;; put_session (f s).

Fixpoint for_each {A} (l : list A) (body : A -> M unit) : M unit :=
  match l with
  | [] => ret tt
  | x :: l' => body x ;; for_each l' body
  end.

(** [random.choice(seq)]: [seq[randbelow(len(seq))]]. *)
Definition random_choice (seq : list string) : M string :=
  fun w =>
    match seq with
    | [] => (Raise IndexError, w)
    | _ :: _ =>
        let g := random w in
        let i := (draws g (cursor g) mod length seq)%nat in
        (Ok (nth i seq EmptyString),
         {| session_state := session_state w;
            random := {| draws := draws g; cursor := S (cursor g) |};
            page := page w |})
    end.

(** ** utils/rag_system.py: the rule-based responder *)

(** [RESPONSE_RULES], a dict from pattern to responses, in declaration
    order. *)
Definition RESPONSE_RULES : dict (list string) :=
  [ ("symptom|sign|feel",
     [ "Common early symptoms include tremors, stiffness, and balance issues.";
       "Many people experience slight tremors in their hands or fingers as an early sign." ]);
    ("treat|medication|drug",
     [ "Treatment often includes medications like Levodopa and physical therapy.";
       "Doctors may prescribe various medications to manage symptoms effectively." ]);
    ("exercise|activity|physical",
     [ "Regular exercise like walking or swimming can help maintain mobility.";
       "Physical therapy is often recommended to improve balance and coordination." ]);
    ("diet|food|eat",
     [ "A balanced diet with plenty of fiber can help manage symptoms.";
       "Some people find that certain dietary changes help with their symptoms." ]);
    ("risk|chance|likely",
     [ "Risk factors include age, family history, and exposure to certain toxins.";
       "The risk increases with age, but Parkinson's can affect people of all ages." ]) ].

Definition DEFAULT_RESPONSES : list string :=
  [ "I'm here to help with information about neurological health.";
    "That's a good question about Parkinson's disease management.";
    "I can provide general information, but please consult a doctor for medical advice." ].

(** The loop of [get_response] over the items of the rules: the first
    pattern found in the query answers; past the last one, the default. *)
Fixpoint first_match (rules : dict (list string)) (query : string) : M string :=
  match rules with
  | [] => random_choice DEFAULT_RESPONSES
  | (pattern, responses) :: rules' =>
      if re_search pattern query then random_choice responses
      else first_match rules' query
  end.

Definition get_response (query : string) (risk_score : option pynum) : M string :=
  let query := lower query in
  first_match RESPONSE_RULES query.

(** ** app.py *)

(** JSON values, as [json.dumps] receives them. *)
#[warnings="-register-all"]
Inductive json : Type :=
| JNum (x : pynum)
| JStr (s : string)
| JArr (items : list json)
| JObj (items : list (string * json)).

(** Library functions that turn numbers, dates and JSON into text. *)
Class Runtime : Type := {
  datetime : Type;
  str_float : R -> string;
  format_3f : R -> string;
  str_datetime : datetime -> string;
  strftime : datetime -> string -> string;
  json_dumps : json -> nat -> string
}.

Definition nl : string := String (ascii_of_nat 10) EmptyString.

(** [sum(1 for s in symptoms.values() if s == "Yes")]. *)
Definition symptom_count (symptoms : dict string) : Z :=
  fold_right (fun s acc => if String.eqb s "Yes" then (1 + acc)%Z else acc)
             0%Z (values symptoms).

(** The test [if tapping_data:], false on [None] and on the empty list. *)
Definition truthy {A} (o : option (list A)) : bool :=
  match o with
  | Some (_ :: _) => true
  | _ => false
  end.

(** The computation under "Analyze Results" in [show_detect], from the
    symptom count to the value stored as [risk_score]. *)
Definition analyze_results (symptoms : dict string)
                           (tapping_data : option (list R)) : pynum :=
  let symptom_score := symptom_count symptoms in
  let risk_score := py_mul (PyInt symptom_score) (PyInt 10) in
  match tapping_data with
  | Some ((_ :: _) as taps) =>
      let tapping_analysis := process_tapping_data taps in
      let risk_score := py_add risk_score (risk_contribution tapping_analysis) in
      py_min (PyInt 100) risk_score
  | _ => risk_score
  end.

(** The positive symptoms of the text report and the line that shows
    them. *)
Definition positive_symptoms (symptoms : dict string) : list string :=
  map fst (filter (fun sv => String.eqb (snd sv) "Yes") symptoms).

Definition symptoms_line (symptoms : dict string) : string :=
  match positive_symptoms symptoms with
  | [] => "None"
  | ps => String.concat ", " ps
  end.

Definition recommendations : list string :=
  [ "Discuss these results with a healthcare provider";
    "Monitor symptoms regularly";
    "Consider lifestyle modifications like regular exercise and a balanced diet" ].

Definition set_risk_score (v : option pynum) (s : session) : session :=
  {| risk_score := v; symptoms := symptoms s; tapping_data := tapping_data s;
     report_generated := report_generated s; messages := messages s |}.

Definition set_symptoms (v : dict string) (s : session) : session :=
  {| risk_score := risk_score s; symptoms := v; tapping_data := tapping_data s;
     report_generated := report_generated s; messages := messages s |}.

Definition set_tapping_data (v : option (list R)) (s : session) : session :=
  {| risk_score := risk_score s; symptoms := symptoms s; tapping_data := v;
     report_generated := report_generated s; messages := messages s |}.

Definition set_report_generated (v : bool) (s : session) : session :=
  {| risk_score := risk_score s; symptoms := symptoms s;
     tapping_data := tapping_data s;
     report_generated := v; messages := messages s |}.

Definition set_messages (v : option (list message)) (s : session) : session :=
  {| risk_score := risk_score s; symptoms := symptoms s;
     tapping_data := tapping_data s;
     report_generated := report_generated s; messages := v |}.

(** The session as the top of the script creates it. *)
Definition initial_session : session :=
  {| risk_score := None; symptoms := []; tapping_data := None;
     report_generated := false; messages := None |}.

(** [st.session_state.messages.append(m)]. *)
Definition append_message (m : message) : M unit :=
  s <- get_session ;;
  match messages s with
  | None => raise (AttributeError "messages")
  | Some h => put_session (set_messages (Some (h ++ [m])%list) s)
  end.

Definition handle_user_query (query : string) : M unit :=
  emit (ChatMessage "user" query) ;;
  append_message {| role := "user"; content := query |} ;;
  s <- get_session ;;
  response <- get_response query (risk_score s) ;;
  emit (ChatMessage "assistant" response) ;;
  append_message {| role := "assistant"; content := response |}.

Definition suggested_questions : list string :=
  [ "What lifestyle changes can I make to improve my neurological health?";
    "How accurate is this assessment?";
    "What are the early signs of Parkinson's disease?";
    "Should I see a specialist based on my results?";
    "What exercises can help with coordination?";
    "How often should I monitor my symptoms?" ].

Definition question_keys : list string :=
  [ "q_0"; "q_1"; "q_2"; "q_3"; "q_4"; "q_5" ].

(** [str(x)] for a number, as an f-string renders it. *)
Definition py_str `{Runtime} (x : pynum) : string :=
  match x with
  | PyInt z => NilZero.string_of_int (Z.to_int z)
  | PyFloat r => str_float r
  end.

(** The comparison [x < n] of a number with an integer literal. *)
Definition py_ltb (x : pynum) (n : Z) : bool :=
  if Rlt_dec (value x) (IZR n) then true else false.

Section Script.

Context `{Runtime}.

(** What one run of the script receives from outside: the widgets (a
    button by its key, or by its label when it has no key), the
    timestamps the tapping loop records, and the successive readings of
    [datetime.now()]. *)
Record inputs : Type := mkInputs {
  button : string -> bool;
  radio_yes : string -> bool;
  chat_input : option string;
  recorded_taps : list R;
  clock : nat -> datetime
}.

(** The dict that [generate_report] hands to [json.dumps]. *)
Definition report_dict (symptoms : dict string) (risk_score : pynum)
                       (now : datetime) : dict json :=
  [ ("risk_score", JNum risk_score);
    ("symptoms", JObj (map (fun sv => (fst sv, JStr (snd sv))) symptoms));
    ("date", JStr (str_datetime now));
    ("recommendations",
     JArr [ JStr "Discuss these results with a healthcare provider";
            JStr "Monitor symptoms regularly";
            JStr "Consider lifestyle modifications like regular exercise and a balanced diet" ]) ].

Definition generate_report (symptoms : dict string) (risk_score : pynum)
                           (now : datetime) : string :=
  json_dumps (JObj (report_dict symptoms risk_score now)) 2.

Definition generate_text_report (symptoms : dict string) (risk_score : pynum)
                                (now : datetime) : string :=
  ("NeuroBridge Health Report" ++ nl ++
   "Generated on: " ++ strftime now "%Y-%m-%d %H:%M" ++ nl ++
   nl ++
   "Risk Score: " ++ py_str risk_score ++ "%" ++ nl ++
   nl ++
   "Symptoms reported:" ++ nl ++
   symptoms_line symptoms ++ nl ++
   nl ++
   "Recommendations:" ++ nl ++
   "- Discuss these results with a healthcare provider" ++ nl ++
   "- Monitor symptoms regularly" ++ nl ++
   "- Consider lifestyle modifications like regular exercise and a balanced diet" ++ nl ++
   nl ++
   "Note: This is a screening tool, not a medical diagnosis." ++ nl)%string.

(** [run_tapping_test]: the timestamps, once "Tap here repeatedly" is
    pressed. *)
Definition run_tapping_test (inp : inputs) : M (option (list R)) :=
  emit (Info "Get ready to tap! Click the button below as fast as you can for 10 seconds.") ;;
  if button inp "tap_button" then
    emit (Success "Tapping test completed!") ;;
    ret (Some (recorded_taps inp))
  else ret None.

(** [show_detect].  The metrics and the chart of the tapping results are
    display only: they read the session and change nothing in it. *)
Definition show_detect (inp : inputs) : M unit :=
  emit (Header "Detect Early Signs") ;;
  emit (Subheader "Symptom Checklist") ;;
  emit (Info "Please answer the following questions based on your experiences over the past few weeks.") ;;
  for_each load_symptom_checklist (fun sq =>
    let symptom := fst sq in
    let answer := if radio_yes inp symptom then "Yes" else "No" in
    modify_session (fun s => set_symptoms (dict_set (symptoms s) symptom answer) s)) ;;
  emit (Subheader "Tapping Test") ;;
  (if button inp "start_tapping" then
     taps <- run_tapping_test inp ;;
     modify_session (set_tapping_data taps)
   else ret tt) ;;
  s <- get_session ;;
  (match tapping_data s with
   | Some ((_ :: _) as taps) =>
       let intervals := np.diff taps in
       emit (Metric "Average time between taps"
                    (format_3f (np.mean intervals) ++ " seconds")%string) ;;
       emit (Metric "Consistency (standard deviation)"
                    (format_3f (np.std intervals) ++ " seconds")%string) ;;
       emit (Chart "Tapping Rhythm Pattern" intervals)
   | _ => ret tt
   end) ;;
  if button inp "Analyze Results" then
    s <- get_session ;;
    let risk_score := analyze_results (symptoms s) (tapping_data s) in
    put_session (set_risk_score (Some risk_score) s) ;;
    emit (Success "Analysis complete!") ;;
    (if py_ltb risk_score 30 then
       emit Balloons ;;
       emit (Success ("Your risk score is " ++ py_str risk_score ++
                      "%. This suggests low risk. Keep monitoring your health regularly.")%string)
     else if py_ltb risk_score 70 then
       emit (Warning ("Your risk score is " ++ py_str risk_score ++
                      "%. This suggests moderate risk. Consider discussing these results with a healthcare provider.")%string)
     else
       emit (Error ("Your risk score is " ++ py_str risk_score ++
                    "%. This suggests higher risk. Please consult with a healthcare professional for a proper evaluation.")%string)) ;;
    emit (Info "**Remember:** This is a screening tool, not a medical diagnosis. Always consult with healthcare professionals for medical advice.")
  else ret tt.

Definition show_connect (inp : inputs) : M unit :=
  emit (Header "Connect with Caregivers") ;;
  s <- get_session ;;
  match risk_score s with
  | None =>
      emit (Warning "Please complete the assessment in the Detect section first.")
  | Some score =>
      emit (Subheader "Your Health Report") ;;
      let report := generate_report (symptoms s) score (clock inp 0%nat) in
      emit (Json report) ;;
      emit (DownloadButton "Download Report as JSON" report
                           "neurobridge_health_report.json" "application/json") ;;
      let text_report := generate_text_report (symptoms s) score (clock inp 1%nat) in
      emit (DownloadButton "Download Summary as Text" text_report
                           "neurobridge_summary.txt" "text/plain") ;;
      modify_session (set_report_generated true) ;;
      emit (Success "Report generated successfully!")
  end.

Definition show_personalize (inp : inputs) : M unit :=
  emit (Header "Personalized Care Plan") ;;
  s <- get_session ;;
  if negb (report_generated s) then
    emit (Warning "Please generate a report in the Connect section first.")
  else
    emit (Subheader "Care Plan Assistant") ;;
    emit (Info "Ask questions about your results or get personalized recommendations for improving your neurological health.") ;;
    (match messages s with
     | None => put_session (set_messages (Some []) s)
     | Some _ => ret tt
     end) ;;
    s <- get_session ;;
    for_each (match messages s with Some h => h | None => [] end)
             (fun m => emit (ChatMessage (role m) (content m))) ;;
    emit Divider ;;
    emit (Subheader "💡 Suggested Questions") ;;
    for_each (combine question_keys suggested_questions) (fun kq =>
      if button inp (fst kq) then handle_user_query (snd kq) else ret tt) ;;
    emit Divider ;;
    (match chat_input inp with
     | Some (String _ _ as prompt) => handle_user_query prompt
     | _ => ret tt
     end) ;;
    if button inp "🗑️ Clear Chat" then
      modify_session (set_messages (Some [])) ;;
      raise RerunException
    else ret tt.

End Script.

(** ** The specification's vocabulary *)

Module Spec.

(** [intervals[i] = taps[i+1] - taps[i]]. *)
Definition interval (taps : list R) (i : nat) : R :=
  (nth (S i) taps 0 - nth i taps 0)%R.

(** Timestamps that never go back. *)
Definition non_decreasing (taps : list R) : Prop :=
  forall i, (S i < length taps)%nat -> (nth i taps 0 <= nth (S i) taps 0)%R.

Definition arithmetic_mean (xs : list R) : R :=
  (fold_right Rplus 0 xs / INR (length xs))%R.

Definition squared_deviations (xs : list R) : R :=
  fold_right Rplus 0%R (map (fun x => (x - arithmetic_mean xs) ^ 2)%R xs).

(** Standard deviation of a population: the divisor is the count. *)
Definition population_std (xs : list R) : R :=
  sqrt (squared_deviations xs / INR (length xs)).

(** Standard deviation of a sample: the divisor is the count less one. *)
Definition sample_std (xs : list R) : R :=
  sqrt (squared_deviations xs / (INR (length xs) - 1)).

Definition clamp (x lo hi : R) : R := Rmax lo (Rmin hi x).

(** The number of responses with the positive answer. *)
Definition yes_count (responses : dict string) : nat :=
  length (filter (fun v => String.eqb v "Yes") (values responses)).

(** The timing sub-score that enters the composite score. *)
Definition timing_contribution (taps : option (list R)) : R :=
  match taps with
  | Some ts => value (risk_contribution (process_tapping_data ts))
  | None => 0%R
  end.

(** The response to [id] is the positive one. *)
Definition answered_yes (responses : dict string) (id : string) : bool :=
  match dict_get responses id with
  | Some v => String.eqb v "Yes"
  | None => false
  end.

(** The positive symptom ids, in the order of the catalog. *)
Definition positive_in_catalog_order (responses : dict string) : list string :=
  filter (answered_yes responses) catalog_ids.

Inductive WorkflowState : Type :=
| NotStarted
| AssessmentInProgress
| AssessmentComplete
| ReportGenerated.

(** The workflow state that a session stands for: the code keeps no
    state variable, the pages test [report_generated] and
    [risk_score]. *)
Definition workflow_state (s : session) : WorkflowState :=
  if report_generated s then ReportGenerated
  else match risk_score s with
       | Some _ => AssessmentComplete
       | None =>
           match symptoms s, tapping_data s with
           | [], None => NotStarted
           | _, _ => AssessmentInProgress
           end
       end.

(** [w] occurs in [s]. *)
Definition substring (w s : string) : Prop :=
  exists pre post, s = (pre ++ w ++ post)%string.

End Spec.

(** A list taken from another one, order kept. *)
Inductive subseq {A : Type} : list A -> list A -> Prop :=
| subseq_nil : forall l, subseq [] l
| subseq_skip : forall x k l, subseq k l -> subseq k (x :: l)
| subseq_take : forall x k l, subseq k l -> subseq (x :: k) (x :: l).

(** A runtime for closed examples: its texts are placeholders. *)
Definition toy_runtime : Runtime :=
  {| datetime := unit;
     str_float := fun _ => "<float>";
     format_3f := fun _ => "<float>";
     str_datetime := fun _ => "<date>";
     strftime := fun _ _ => "<date>";
     json_dumps := fun _ _ => "<json>" |}.

Definition quiet_inputs `{Runtime} (now : datetime) : inputs :=
  {| button := fun _ => false;
     radio_yes := fun _ => false;
     chat_input := None;
     recorded_taps := [];
     clock := fun _ => now |}.

Definition fresh_world : world :=
  {| session_state := initial_session;
     random := {| draws := fun _ => 0%nat; cursor := 0 |};
     page := [] |}.

(** ** utils/ml_models.py *)

(** [predict_risk(model, symptoms, tapping_data)]: the model is not
    read. *)
Definition predict_risk {Model : Type} (model : Model)
           (symptoms : dict string) (tapping_data : option (list R)) : pynum :=
  let symptom_count := symptom_count symptoms in
  let risk_score := py_mul (PyInt symptom_count) (PyInt 10) in
  let risk_score :=
    match tapping_data with
    | Some ((_ :: _) as taps) =>
        let intervals := np.diff taps in
        if (1 <? length intervals)%nat then
          let variability := np.std intervals in
          py_add risk_score
                 (py_min (PyInt 40) (py_mul (PyFloat variability) (PyInt 100)))
        else risk_score
    | _ => risk_score
    end in
  py_min (PyInt 100) risk_score.

(** ** chatbot.py *)

Module HealthChatbot.

(** [self.responses], in declaration order. *)
Definition responses : dict string :=
  [ ("hello", "Hello! How are you feeling today?");
    ("hi", "Hi there! Tell me about your health.");
    ("headache", "I’m sorry to hear that. Please drink water and rest. If it persists, consult a doctor.");
    ("fever", "Monitor your temperature regularly. Drink fluids and rest. If fever is high, visit a clinic.");
    ("glucose", "Please ensure you are monitoring your sugar levels regularly. Avoid excessive sugar intake.");
    ("bye", "Goodbye! Stay healthy and take care.");
    ("default", "I’m here to help with your health concerns. Can you tell me more?") ].

(** The loop over the keys of a dict: the first key that occurs in the
    message is looked up; past the last key, ["default"] is.  [None]
    stands for the [KeyError] of a lookup that fails. *)
Fixpoint scan (d : dict string) (ks : list string) (msg : string) : option string :=
  match ks with
  | [] => dict_get d "default"
  | key :: ks' => if contains key msg then dict_get d key else scan d ks' msg
  end.

Definition get_response (message : string) : option string :=
  let msg := lower message in
  scan responses (keys responses) msg.

End HealthChatbot.

(** ** app.py: the pages together *)

Definition show_home : M unit := emit (Header "Welcome to NeuroBridge").

Definition show_about : M unit := emit (Header "About NeuroBridge").

(** [main]: the page chosen in the sidebar. *)
Definition main `{Runtime} (choice : string) (inp : inputs) : M unit :=
  if String.eqb choice "Home" then show_home
  else if String.eqb choice "Detect" then show_detect inp
  else if String.eqb choice "Connect" then show_connect inp
  else if String.eqb choice "Personalize" then show_personalize inp
  else if String.eqb choice "About" then show_about
  else ret tt.

(** One run of the script.  Streamlit runs [main] from the top on every
    interaction, also after [st.rerun()]: the page starts blank, the session
    state and the generator of the process are carried over. *)
Definition rerun `{Runtime} (choice : string) (inp : inputs) (w : world) : world :=
  snd (main choice inp {| session_state := session_state w;
                          random := random w;
                          page := [] |}).

Fixpoint visits `{Runtime} (runs : list (string * inputs)) (w : world) : world :=
  match runs with
  | [] => w
  | (choice, inp) :: rest => visits rest (rerun choice inp w)
  end.

(** What every session the script can reach satisfies. *)
Record session_ok (s : session) : Prop := mkSessionOk {
  ok_keys : keys (symptoms s) = [] \/ keys (symptoms s) = catalog_ids;
  ok_answers : forall v, In v (values (symptoms s)) -> v = "Yes" \/ v = "No";
  ok_score : forall v, risk_score s = Some v -> (0 <= value v <= 100)%R;
  ok_report : report_generated s = true -> risk_score s <> None;
  ok_history : messages s <> None -> report_generated s = true
}.

(** The answers after the loop of the checklist page, and the session
    that the page leaves: summaries of [show_detect], proved below to be
    what the script computes. *)
Definition answer_all `{Runtime} (inp : inputs) (d : dict string) : dict string :=
  fold_left (fun d sq =>
               dict_set d (fst sq) (if radio_yes inp (fst sq) then "Yes" else "No"))
            load_symptom_checklist d.

Definition after_detect `{Runtime} (inp : inputs) (s : session) : session :=
  let s1 := set_symptoms (answer_all inp (symptoms s)) s in
  let s2 := if button inp "start_tapping"
            then set_tapping_data
                   (if button inp "tap_button" then Some (recorded_taps inp)
                    else None) s1
            else s1 in
  if button inp "Analyze Results"
  then set_risk_score
         (Some (analyze_results (symptoms s2) (tapping_data s2))) s2
  else s2.

(** * Properties *)

(** ** numpy *)

Lemma diff_length (a : list R) : length (np.diff a) = (length a - 1)%nat.
Proof.
  induction a as [|x [|y tl] IH]; simpl in *; auto.
  rewrite IH. lia.
Qed.

Lemma diff_nth (a : list R) (i : nat) :
  (S i < length a)%nat -> nth i (np.diff a) 0%R = Spec.interval a i.
Proof.
  unfold Spec.interval. revert i.
  induction a as [|x [|y tl] IH]; intros i Hi; simpl in Hi; try lia.
  destruct i as [|i].
  - reflexivity.
  - change (nth i (np.diff (y :: tl)) 0%R = (nth (S i) (y :: tl) 0 - nth i (y :: tl) 0)%R).
    apply IH. simpl. lia.
Qed.

Lemma sum_nonneg (xs : list R) :
  (forall i, (i < length xs)%nat -> (0 <= nth i xs 0)%R) -> (0 <= np.sum xs)%R.
Proof.
  induction xs as [|x xs IH]; intros Hpos; simpl.
  - lra.
  - assert (0 <= x)%R by (apply (Hpos 0%nat); simpl; lia).
    assert (0 <= np.sum xs)%R.
    { apply IH. intros i Hi. apply (Hpos (S i)). simpl. lia. }
    unfold np.sum in *. lra.
Qed.

Lemma mean_nonneg (xs : list R) :
  xs <> [] ->
  (forall i, (i < length xs)%nat -> (0 <= nth i xs 0)%R) -> (0 <= np.mean xs)%R.
Proof.
  intros Hne Hpos. unfold np.mean, np.len.
  apply Rmult_le_pos.
  - now apply sum_nonneg.
  - left. apply Rinv_0_lt_compat. apply lt_0_INR.
    destruct xs; [congruence | simpl; lia].
Qed.

Lemma mean_is_arithmetic_mean (xs : list R) :
  np.mean xs = Spec.arithmetic_mean xs.
Proof. reflexivity. Qed.

Lemma std_is_population_std (xs : list R) :
  np.std xs = Spec.population_std xs.
Proof.
  unfold np.std, Spec.population_std, np.var, Spec.squared_deviations.
  f_equal. unfold np.mean at 1. unfold np.len, np.sum.
  rewrite length_map. f_equal. f_equal.
  apply map_ext. intros x.
  rewrite <- Rsqr_abs. rewrite mean_is_arithmetic_mean.
  unfold Rsqr. ring.
Qed.

Lemma std_nonneg (xs : list R) : (0 <= np.std xs)%R.
Proof. apply sqrt_pos. Qed.

(** [min(50, x)] on values. *)
Lemma py_min_value (a b : pynum) :
  value (py_min a b) = Rmin (value a) (value b).
Proof.
  unfold py_min, Rmin.
  destruct (Rlt_dec (value b) (value a)) as [Hlt|Hnlt];
    destruct (Rle_dec (value a) (value b)) as [Hle|Hnle]; try reflexivity; lra.
Qed.

Lemma py_add_value (a b : pynum) :
  value (py_add a b) = (value a + value b)%R.
Proof.
  destruct a, b; simpl; try reflexivity. apply plus_IZR.
Qed.

Lemma py_mul_value (a b : pynum) :
  value (py_mul a b) = (value a * value b)%R.
Proof.
  destruct a, b; simpl; try reflexivity. apply mult_IZR.
Qed.

Lemma process_long (taps : list R) :
  (2 <= length taps)%nat ->
  process_tapping_data taps =
  {| mean_interval := PyFloat (np.mean (np.diff taps));
     std_interval := PyFloat (np.std (np.diff taps));
     risk_contribution :=
       py_min (PyInt 50) (PyFloat (np.std (np.diff taps) * 100)) |}.
Proof.
  intros Hlen. unfold process_tapping_data.
  destruct (Nat.ltb_spec (length taps) 2) as [Hlt|_]; [lia|].
  reflexivity.
Qed.

Lemma contribution_value (taps : list R) :
  (2 <= length taps)%nat ->
  value (risk_contribution (process_tapping_data taps)) =
  Rmin 50 (np.std (np.diff taps) * 100).
Proof.
  intros Hlen. rewrite (process_long taps Hlen). simpl.
  rewrite py_min_value. reflexivity.
Qed.

Lemma contribution_bounds (taps : list R) :
  (0 <= value (risk_contribution (process_tapping_data taps)) <= 50)%R.
Proof.
  destruct (Nat.ltb_spec (length taps) 2) as [Hlt|Hge].
  - unfold process_tapping_data.
    destruct (Nat.ltb_spec (length taps) 2) as [_|Hge]; [|lia].
    simpl. lra.
  - rewrite (contribution_value taps Hge).
    pose proof (std_nonneg (np.diff taps)) as Hs.
    split.
    + apply Rmin_glb; lra.
    + apply Rmin_l.
Qed.

Lemma process_short (taps : list R) :
  (length taps < 2)%nat ->
  process_tapping_data taps = mkFeatures (PyInt 0) (PyInt 0) (PyInt 0).
Proof.
  intros Hlen. unfold process_tapping_data.
  destruct (Nat.ltb_spec (length taps) 2) as [_|Hge]; [reflexivity | lia].
Qed.

(** The record of the data model: a mean and a deviation that are not
    negative, and a contribution in [0, 50]. *)
Lemma timing_features_invariant (taps : list R) :
  Spec.non_decreasing taps ->
  let f := process_tapping_data taps in
  (0 <= value (mean_interval f))%R /\
  (0 <= value (std_interval f))%R /\
  (0 <= value (risk_contribution f) <= 50)%R.
Proof.
  intros Hmono f. subst f.
  split; [|split; [|apply contribution_bounds]].
  - destruct (Nat.ltb_spec (length taps) 2) as [Hlt|Hge].
    + rewrite (process_short taps Hlt). simpl. lra.
    + rewrite (process_long taps Hge). cbn [mean_interval value].
      apply mean_nonneg.
      * intros Hnil. apply (f_equal (@length R)) in Hnil.
        rewrite diff_length in Hnil. simpl in Hnil. lia.
      * intros i Hi. rewrite diff_length in Hi.
        rewrite diff_nth by lia. unfold Spec.interval.
        assert (Hi' : (S i < length taps)%nat) by lia.
        specialize (Hmono i Hi'). lra.
  - destruct (Nat.ltb_spec (length taps) 2) as [Hlt|Hge].
    + rewrite (process_short taps Hlt). simpl. lra.
    + rewrite (process_long taps Hge). cbn [std_interval value].
      apply std_nonneg.
Qed.

(** ** The feature extractor *)

(** C4: a tap sequence with fewer than two timestamps, empty or of one
    element, gives the record whose three fields are the integer 0; the
    function is total, so it returns and raises nothing. *)
Theorem degenerate_taps (taps : list R) :
  (length taps < 2)%nat ->
  process_tapping_data taps =
  {| mean_interval := PyInt 0;
     std_interval := PyInt 0;
     risk_contribution := PyInt 0 |}.
Proof.
  intros Hlen. unfold process_tapping_data.
  destruct (Nat.ltb_spec (length taps) 2) as [_|Hge]; [reflexivity | lia].
Qed.

Lemma degenerate_taps_witness :
  process_tapping_data [] = mkFeatures (PyInt 0) (PyInt 0) (PyInt 0) /\
  process_tapping_data [5%R] = mkFeatures (PyInt 0) (PyInt 0) (PyInt 0).
Proof.
  split.
  - apply (degenerate_taps []). simpl. lia.
  - apply (degenerate_taps [5%R]). simpl. lia.
Defined.

(** C3: on at least two timestamps that never go back, the intervals are
    the consecutive differences [taps[i+1] - taps[i]] (none negative), the
    mean interval is their arithmetic mean, the deviation is that of a
    population (divisor: the count), and the risk contribution is
    [min(50, std * 100)]; so the contribution lies in [0, 50] and grows,
    weakly, with the deviation. *)
Theorem extract_features (taps : list R) :
  (2 <= length taps)%nat ->
  Spec.non_decreasing taps ->
  let f := process_tapping_data taps in
  let intervals := np.diff taps in
  (length intervals = (length taps - 1)%nat /\
   forall i, (S i < length taps)%nat ->
             nth i intervals 0%R = Spec.interval taps i /\
             (0 <= nth i intervals 0)%R) /\
  value (mean_interval f) = Spec.arithmetic_mean intervals /\
  value (std_interval f) = Spec.population_std intervals /\
  value (risk_contribution f) = Rmin 50 (value (std_interval f) * 100) /\
  (0 <= value (risk_contribution f) <= 50)%R /\
  (forall taps',
      (2 <= length taps')%nat ->
      Spec.non_decreasing taps' ->
      (value (std_interval f) <=
       value (std_interval (process_tapping_data taps')))%R ->
      (value (risk_contribution f) <=
       value (risk_contribution (process_tapping_data taps')))%R).
Proof.
  intros Hlen Hmono f intervals. subst f intervals.
  repeat split.
  - apply diff_length.
  - now apply diff_nth.
  - rewrite (diff_nth taps i H). unfold Spec.interval.
    specialize (Hmono i H). lra.
  - rewrite (process_long taps Hlen). reflexivity.
  - rewrite (process_long taps Hlen). simpl. apply std_is_population_std.
  - rewrite (contribution_value taps Hlen).
    rewrite (process_long taps Hlen). reflexivity.
  - apply contribution_bounds.
  - apply contribution_bounds.
  - intros taps' Hlen' _ Hstd.
    rewrite (contribution_value taps Hlen), (contribution_value taps' Hlen').
    rewrite (process_long taps Hlen), (process_long taps' Hlen') in Hstd.
    simpl in Hstd.
    apply Rle_min_compat_l. lra.
Qed.

Lemma extract_features_witness :
  (0 <= value (risk_contribution (process_tapping_data [0; 1; 3])) <= 50)%R.
Proof.
  assert (Hlen : (2 <= length [0; 1; 3]%R)%nat) by (simpl; lia).
  assert (Hmono : Spec.non_decreasing [0; 1; 3]%R).
  { intros i Hi. simpl in Hi.
    destruct i as [|[|i]]; simpl; try lra; lia. }
  exact (proj1 (proj2 (proj2 (proj2 (proj2
           (extract_features [0; 1; 3]%R Hlen Hmono)))))).
Defined.

(** ** The composite score *)

Lemma symptom_count_yes_count (symptoms : dict string) :
  symptom_count symptoms = Z.of_nat (Spec.yes_count symptoms).
Proof.
  unfold symptom_count, Spec.yes_count.
  induction (values symptoms) as [|v vs IH].
  - reflexivity.
  - cbn [fold_right filter].
    destruct (String.eqb v "Yes"); cbn [length]; rewrite IH; lia.
Qed.

Lemma yes_count_le_keys (symptoms : dict string) :
  (Spec.yes_count symptoms <= length (keys symptoms))%nat.
Proof.
  unfold Spec.yes_count, keys, values.
  rewrite length_map.
  etransitivity; [apply filter_length_le|].
  now rewrite length_map.
Qed.

(** A dict over the catalog has at most ten positive answers. *)
Lemma yes_count_le_10 (symptoms : dict string) :
  well_formed symptoms ->
  incl (keys symptoms) catalog_ids ->
  (Spec.yes_count symptoms <= 10)%nat.
Proof.
  intros Hwf Hincl.
  etransitivity; [apply yes_count_le_keys|].
  change 10%nat with (length catalog_ids).
  now apply NoDup_incl_length.
Qed.

Lemma symptom_component_value (symptoms : dict string) :
  value (py_mul (PyInt (symptom_count symptoms)) (PyInt 10)) =
  (10 * INR (Spec.yes_count symptoms))%R.
Proof.
  simpl. rewrite symptom_count_yes_count, mult_IZR, <- INR_IZR_INZ. ring.
Qed.

(** The stored score, on values: the cap at 100 is applied on the path
    with taps only. *)
Lemma analyze_results_value (symptoms : dict string) (tapping_data : option (list R)) :
  value (analyze_results symptoms tapping_data) =
  if truthy tapping_data
  then Rmin 100 (10 * INR (Spec.yes_count symptoms) +
                 Spec.timing_contribution tapping_data)
  else (10 * INR (Spec.yes_count symptoms))%R.
Proof.
  unfold analyze_results.
  destruct tapping_data as [[|t ts]|]; simpl truthy; cbv iota;
    try apply symptom_component_value.
  rewrite py_min_value, py_add_value, symptom_component_value.
  reflexivity.
Qed.

Lemma timing_contribution_bounds (tapping_data : option (list R)) :
  (0 <= Spec.timing_contribution tapping_data <= 50)%R.
Proof.
  destruct tapping_data as [ts|]; simpl.
  - apply contribution_bounds.
  - lra.
Qed.

Lemma timing_contribution_falsy (tapping_data : option (list R)) :
  truthy tapping_data = false -> Spec.timing_contribution tapping_data = 0%R.
Proof.
  destruct tapping_data as [[|t ts]|]; simpl; intros Hf;
    try discriminate; reflexivity.
Qed.

Lemma INR_10 : INR 10 = 10%R.
Proof. rewrite INR_IZR_INZ. reflexivity. Qed.

Lemma clamp_inside (x : R) :
  (0 <= x)%R -> Spec.clamp x 0 100 = Rmin 100 x.
Proof.
  intros Hx. unfold Spec.clamp.
  apply Rmax_right. apply Rmin_glb; lra.
Qed.

(** The score on values, and its range. *)
Lemma composite_score_bounds (symptoms : dict string) (tapping_data : option (list R)) :
  well_formed symptoms ->
  incl (keys symptoms) catalog_ids ->
  value (analyze_results symptoms tapping_data) =
    Rmin 100 (10 * INR (Spec.yes_count symptoms) +
              Spec.timing_contribution tapping_data) /\
  (0 <= value (analyze_results symptoms tapping_data) <= 100)%R.
Proof.
  intros Hwf Hincl.
  pose proof (yes_count_le_10 symptoms Hwf Hincl) as Hle.
  apply le_INR in Hle. rewrite INR_10 in Hle.
  pose proof (pos_INR (Spec.yes_count symptoms)) as Hpos.
  pose proof (timing_contribution_bounds tapping_data) as Hrc.
  assert (Heq : value (analyze_results symptoms tapping_data) =
                Rmin 100 (10 * INR (Spec.yes_count symptoms) +
                          Spec.timing_contribution tapping_data)).
  { rewrite analyze_results_value.
    destruct (truthy tapping_data) eqn:Ht; [reflexivity|].
    rewrite (timing_contribution_falsy _ Ht).
    rewrite Rmin_right; lra. }
  split; [exact Heq|]. rewrite Heq. split.
  - apply Rmin_glb; lra.
  - apply Rmin_l.
Qed.

(** C1: for responses over the catalog and taps present or not, the score
    is [clamp(10 * (number of Yes) + contribution, 0, 100)], the
    contribution being that of the feature extractor when there are taps
    and 0 otherwise.  The score lies in [0, 100]; no response and no
    taps give 0; ten positive answers give 100 whatever the taps. *)
Theorem composite_score (symptoms : dict string) (tapping_data : option (list R)) :
  well_formed symptoms ->
  incl (keys symptoms) catalog_ids ->
  let score := value (analyze_results symptoms tapping_data) in
  score = Spec.clamp (10 * INR (Spec.yes_count symptoms) +
                      Spec.timing_contribution tapping_data) 0 100 /\
  (0 <= score <= 100)%R /\
  (symptoms = [] -> tapping_data = None ->
   analyze_results symptoms tapping_data = PyInt 0) /\
  (Spec.yes_count symptoms = 10%nat -> score = 100%R).
Proof.
  intros Hwf Hincl score. subst score.
  destruct (composite_score_bounds symptoms tapping_data Hwf Hincl)
    as [Heq Hbounds].
  pose proof (pos_INR (Spec.yes_count symptoms)) as Hpos.
  pose proof (timing_contribution_bounds tapping_data) as Hrc.
  repeat split; try apply Hbounds.
  - rewrite Heq. symmetry. apply clamp_inside. lra.
  - intros -> ->. reflexivity.
  - intros H10. rewrite Heq, H10, INR_10.
    apply Rmin_left. lra.
Qed.

Lemma composite_score_witness :
  (0 <= value (analyze_results [("tremor", "Yes"); ("rigidity", "Yes")] None)
   <= 100)%R.
Proof.
  assert (Hwf : well_formed [("tremor", "Yes"); ("rigidity", "Yes")]).
  { unfold well_formed. simpl.
    repeat constructor; simpl; intuition discriminate. }
  assert (Hincl : incl (keys [("tremor", "Yes"); ("rigidity", "Yes")]) catalog_ids).
  { intros x [<-|[<-|[]]]; simpl; tauto. }
  exact (proj1 (proj2
           (composite_score [("tremor", "Yes"); ("rigidity", "Yes")] None
                            Hwf Hincl))).
Defined.

(** Scenario A: two positive answers, no taps. *)
Example scenario_A :
  analyze_results [("tremor", "Yes"); ("rigidity", "Yes")] None = PyInt 20.
Proof. reflexivity. Qed.

(** The deviation of two intervals is half their distance. *)
Lemma std_pair (a b : R) : np.std [a; b] = (Rabs (a - b) / 2)%R.
Proof.
  unfold np.std, np.var, np.mean, np.len, np.sum. simpl.
  rewrite <- !Rsqr_abs.
  replace ((Rsqr (a - (a + (b + 0)) / (1 + 1)) +
            (Rsqr (b - (a + (b + 0)) / (1 + 1)) + 0)) / (1 + 1))%R
    with (Rsqr ((a - b) / 2)) by (unfold Rsqr; field).
  rewrite sqrt_Rsqr_abs. unfold Rdiv.
  rewrite Rabs_mult. f_equal.
  apply Rabs_right. lra.
Qed.

(** The divisor is the count: on the intervals 1 and 3 the deviation is
    1, where the divisor count - 1 would give the square root of 2. *)
Example std_divisor_is_count :
  np.std [1; 3]%R = 1%R /\ Spec.sample_std [1; 3]%R = sqrt 2 /\
  np.std [1; 3]%R <> Spec.sample_std [1; 3]%R.
Proof.
  assert (Hpop : np.std [1; 3]%R = 1%R).
  { rewrite std_pair. replace (1 - 3)%R with (Ropp 2) by ring.
    rewrite Rabs_Ropp, Rabs_right by lra. lra. }
  assert (Hsam : Spec.sample_std [1; 3]%R = sqrt 2).
  { unfold Spec.sample_std, Spec.squared_deviations, Spec.arithmetic_mean.
    simpl. f_equal. field. }
  split; [exact Hpop|]. split; [exact Hsam|].
  rewrite Hpop, Hsam. intros Heq.
  assert (Hsq : (sqrt 2 * sqrt 2 = 2)%R) by (apply sqrt_sqrt; lra).
  rewrite <- Heq in Hsq. lra.
Qed.

(** Scenario B: no positive answer, taps at an even pace. *)
Example scenario_B :
  value (analyze_results [("tremor", "No"); ("rigidity", "No")]
                         (Some [0; 1/2; 1; 3/2]%R)) = 0%R.
Proof.
  rewrite analyze_results_value. simpl truthy. cbv iota.
  unfold Spec.timing_contribution.
  rewrite contribution_value by (simpl; lia).
  assert (Hstd : np.std (np.diff [0; 1/2; 1; 3/2]%R) = 0%R).
  { unfold np.std, np.var, np.mean, np.len, np.sum. simpl.
    rewrite <- !Rsqr_abs.
    match goal with |- sqrt ?v = _ => replace v with 0%R by (unfold Rsqr; field) end.
    apply sqrt_0. }
  rewrite Hstd. simpl.
  rewrite (Rmin_right 50 (0 * 100)) by lra.
  rewrite Rmin_right by lra. lra.
Qed.

Lemma not_an_integer (x : R) (n : Z) :
  (IZR n < x < IZR (n + 1))%R -> forall z : Z, x <> IZR z.
Proof.
  intros [H0 H1] z ->.
  apply lt_IZR in H0. apply lt_IZR in H1. lia.
Qed.

(** One positive answer and taps at 0 s, 1 ms and 3 ms: the score is the
    float 10.05. *)
Lemma uneven_taps_score :
  analyze_results [("tremor", "Yes")] (Some [0; 1/1000; 3/1000]%R) =
  PyFloat (201/20).
Proof.
  unfold analyze_results.
  rewrite process_long by (simpl; lia).
  cbn [risk_contribution np.diff].
  rewrite std_pair.
  replace (1 / 1000 - 0 - (3 / 1000 - 1 / 1000))%R with (- (1 / 1000))%R by field.
  rewrite Rabs_Ropp, Rabs_right by lra.
  unfold py_min. cbn [value py_mul].
  destruct (Rlt_dec (1 / 1000 / 2 * IZR 100) (IZR 50)) as [_|Hn]; [|exfalso; lra].
  change (symptom_count [("tremor", "Yes")]) with 1%Z.
  cbn [py_add value Z.mul Pos.mul].
  destruct (Rlt_dec _ (IZR 100)) as [_|Hn]; [|exfalso; lra].
  f_equal. lra.
Qed.

(** C2, as stated, fails: with one positive answer and taps at 0 s, 1 ms
    and 3 ms the stored score is 10.05, which is no integer. *)
Lemma score_is_not_an_integer :
  ~ exists z : Z,
      value (analyze_results [("tremor", "Yes")]
                             (Some [0; 1/1000; 3/1000]%R)) = IZR z.
Proof.
  intros [z Hz]. rewrite uneven_taps_score in Hz. simpl in Hz.
  revert Hz. apply (not_an_integer _ 10). simpl. lra.
Qed.

(** C2, amended: for responses over the catalog the stored score is one
    number in [0, 100], equal to [min(100, 10 * (number of Yes) +
    contribution)] in real arithmetic, and nothing rounds or truncates it.
    It is an integer when the taps are absent or fewer than two; with two
    taps or more, a deviation below 0.5 and a sum below 100 it is the
    float of that sum itself. *)
Theorem score_is_not_quantized (symptoms : dict string)
                               (tapping_data : option (list R)) :
  well_formed symptoms ->
  incl (keys symptoms) catalog_ids ->
  let score := analyze_results symptoms tapping_data in
  let yes := (10 * INR (Spec.yes_count symptoms))%R in
  (0 <= value score <= 100)%R /\
  value score = Rmin 100 (yes + Spec.timing_contribution tapping_data) /\
  ((forall taps, tapping_data = Some taps -> (length taps < 2)%nat) ->
   exists z : Z, score = PyInt z /\ (0 <= z <= 100)%Z) /\
  (forall taps,
      tapping_data = Some taps ->
      (2 <= length taps)%nat ->
      let std := np.std (np.diff taps) in
      (std * 100 < 50)%R ->
      (yes + std * 100 < 100)%R ->
      score = PyFloat (yes + std * 100)).
Proof.
  intros Hwf Hincl score yes.
  destruct (composite_score_bounds symptoms tapping_data Hwf Hincl)
    as [Hval Hbounds].
  pose proof (yes_count_le_10 symptoms Hwf Hincl) as Hle.
  repeat split; try apply Hbounds.
  - exact Hval.
  - intros Hshort. subst score.
    exists (symptom_count symptoms * 10)%Z.
    rewrite symptom_count_yes_count. split; [|lia].
    unfold analyze_results.
    destruct tapping_data as [[|t ts]|]; cbn [py_mul];
      rewrite ?symptom_count_yes_count; try reflexivity.
    specialize (Hshort (t :: ts) eq_refl).
    rewrite (process_short (t :: ts) Hshort).
    cbn [risk_contribution py_add]. rewrite Z.add_0_r.
    unfold py_min. cbn [value].
    destruct (Rlt_dec _ _) as [_|Hn]; [reflexivity|].
    apply Rnot_lt_le, le_IZR in Hn. f_equal. lia.
  - intros taps -> Hlen std Hstd Hsum. subst score std.
    unfold analyze_results.
    destruct taps as [|t ts]; [simpl in Hlen; lia|].
    rewrite process_long by exact Hlen.
    cbn [risk_contribution]. unfold py_min at 2. cbn [value py_mul].
    destruct (Rlt_dec _ (IZR 50)) as [_|Hn]; [|exfalso; apply Hn; exact Hstd].
    cbn [py_add value].
    assert (Hyes : IZR (symptom_count symptoms * 10) = yes).
    { subst yes. rewrite symptom_count_yes_count, mult_IZR, <- INR_IZR_INZ. ring. }
    rewrite Hyes.
    unfold py_min. cbn [value].
    destruct (Rlt_dec _ (IZR 100)) as [_|Hn]; [reflexivity|].
    exfalso. apply Hn. exact Hsum.
Qed.

Lemma score_is_not_quantized_witness :
  (0 <= value (analyze_results [("tremor", "Yes")]
                               (Some [0; 1/1000; 3/1000]%R)) <= 100)%R.
Proof.
  assert (Hwf : well_formed [("tremor", "Yes")]).
  { unfold well_formed. simpl. repeat constructor. simpl. tauto. }
  assert (Hincl : incl (keys [("tremor", "Yes")]) catalog_ids).
  { intros x [<-|[]]. simpl. tauto. }
  exact (proj1 (score_is_not_quantized [("tremor", "Yes")]
                  (Some [0; 1/1000; 3/1000]%R) Hwf Hincl)).
Defined.

(** ** Strings and patterns *)

Lemma prefix_spec (w s : string) :
  String.prefix w s = true <-> exists post, s = (w ++ post)%string.
Proof.
  revert s. induction w as [|c w IH]; intros s.
  - destruct s; simpl; split; auto; intros _; eexists; reflexivity.
  - destruct s as [|d s]; simpl.
    + split; [discriminate | intros [post Hp]; discriminate].
    + destruct (ascii_dec c d) as [->|Hne].
      * rewrite IH. split; intros [post Hp]; exists post.
        -- now rewrite Hp.
        -- now injection Hp.
      * split; [discriminate|].
        intros [post Hp]. injection Hp as Hd _. congruence.
Qed.

(** [contains] decides the occurrence of a word in a string. *)
Lemma contains_spec (w s : string) :
  contains w s = true <-> Spec.substring w s.
Proof.
  unfold Spec.substring. induction s as [|d s IH]; cbn [contains].
  - rewrite orb_false_r, prefix_spec. split.
    + intros [post Hp]. now exists EmptyString, post.
    + intros [[|c pre] [post Hp]]; [now exists post | discriminate].
  - rewrite orb_true_iff, prefix_spec, IH. split.
    + intros [[post Hp] | [pre [post Hp]]].
      * now exists EmptyString, post.
      * exists (String d pre), post. simpl. now rewrite Hp.
    + intros [[|c pre] [post Hp]].
      * left. now exists post.
      * right. exists pre, post. simpl in Hp. now injection Hp.
Qed.

(** A pattern of this program is found when one of its words occurs. *)
Lemma re_search_spec (pattern s : string) :
  re_search pattern s = true <->
  exists word, In word (split_on "|"%char pattern) /\ Spec.substring word s.
Proof.
  unfold re_search. rewrite existsb_exists.
  split; intros [word [Hin Hw]]; exists word; split; auto;
    now apply contains_spec.
Qed.

(** ** The rule-based responder *)

Local Open Scope list_scope.

Lemma random_choice_total (seq : list string) (w : world) :
  seq <> [] ->
  exists r g,
    random_choice seq w =
      (Ok r, {| session_state := session_state w; random := g; page := page w |}) /\
    In r seq.
Proof.
  intros Hne. destruct seq as [|x seq]; [congruence|].
  unfold random_choice.
  eexists _, _. split; [reflexivity|].
  apply nth_In. apply Nat.mod_upper_bound. simpl. lia.
Qed.





Lemma rules_nonempty (pr : string * list string) :
  In pr RESPONSE_RULES -> snd pr <> [].
Proof.
  simpl. intros [<-|[<-|[<-|[<-|[<-|[]]]]]]; discriminate.
Qed.

(** The responder always answers; it reads and moves the generator and
    touches nothing else. *)
Lemma get_response_total (query : string) (risk : option pynum) (w : world) :
  exists r g,
    get_response query risk w =
      (Ok r, {| session_state := session_state w; random := g; page := page w |}).
Proof.
  unfold get_response.
  assert (Hgen : forall rules,
             (forall pr, In pr rules -> snd pr <> []) ->
             exists r g,
               first_match rules (lower query) w =
                 (Ok r, {| session_state := session_state w;
                           random := g; page := page w |})).
  { induction rules as [|[p rs] rules IH]; intros Hne; simpl.
    - destruct (random_choice_total DEFAULT_RESPONSES w) as [r [g [Hr _]]];
        [discriminate | now exists r, g].
    - destruct (re_search p (lower query)).
      + destruct (random_choice_total rs w) as [r [g [Hr _]]];
          [apply (Hne (p, rs)); now left | now exists r, g].
      + apply IH. intros pr Hin. apply Hne. now right. }
  apply Hgen. apply rules_nonempty.
Qed.






Lemma random_choice_same_rng (seq : list string) (w1 w2 : world) :
  random w1 = random w2 ->
  fst (random_choice seq w1) = fst (random_choice seq w2).
Proof.
  intros Hrng. unfold random_choice.
  destruct seq as [|x seq]; simpl; [reflexivity|].
  now rewrite Hrng.
Qed.

Lemma get_response_same_rng (query : string) (risk1 risk2 : option pynum)
      (w1 w2 : world) :
  random w1 = random w2 ->
  fst (get_response query risk1 w1) = fst (get_response query risk2 w2).
Proof.
  intros Hrng. unfold get_response.
  induction RESPONSE_RULES as [|[p rs] rules IH]; cbn [first_match].
  - now apply random_choice_same_rng.
  - destruct (re_search p (lower query)); [|exact IH].
    now apply random_choice_same_rng.
Qed.

(** C10: with the same query and the same state of the generator, the
    responder gives the same answer whatever risk score it is handed,
    absent or not, and whatever else the session holds: the argument is
    not read. *)
Theorem response_ignores_risk_score (query : string)
        (risk_score1 risk_score2 : option pynum) (w1 w2 : world) :
  random w1 = random w2 ->
  fst (get_response query risk_score1 w1) =
  fst (get_response query risk_score2 w2).
Proof. apply get_response_same_rng. Qed.

Lemma response_ignores_risk_score_witness :
  fst (get_response "Am I at risk?" None fresh_world) =
  fst (get_response "Am I at risk?" (Some (PyInt 90))
         {| session_state := set_risk_score (Some (PyInt 90)) initial_session;
            random := random fresh_world;
            page := [Header "Personalized Care Plan"] |}).
Proof.
  apply (response_ignores_risk_score "Am I at risk?" None (Some (PyInt 90))).
  reflexivity.
Defined.

(** ** The assistant page *)

(** C7: a handled query appends two entries to the history, the query
    under the role user and then the answer under the role assistant, and
    changes nothing else in the session. *)
Theorem dialogue_appends_two (query : string) (w : world) (h : list message) :
  messages (session_state w) = Some h ->
  exists response w',
    handle_user_query query w = (Ok tt, w') /\
    fst (get_response query (risk_score (session_state w)) w) = Ok response /\
    session_state w' =
      set_messages
        (Some (h ++ [ {| role := "user"; content := query |};
                      {| role := "assistant"; content := response |} ]))
        (session_state w).
Proof.
  intros Hh.
  unfold handle_user_query, bind, emit, append_message, bind,
         get_session, put_session.
  cbn [session_state random page]. rewrite Hh.
  cbn [session_state random page set_messages messages risk_score].
  match goal with
  | |- context [get_response query ?rs ?w0] =>
      destruct (get_response_total query rs w0) as [r [g Hrun]];
      pose proof (get_response_same_rng query rs rs w0 w eq_refl) as Hsame
  end.
  rewrite Hrun in *. cbn [fst session_state random page messages] in *.
  eexists r, _. split; [reflexivity|]. split; [now symmetry|].
  cbn [session_state]. unfold set_messages. cbn.
  rewrite <- app_assoc. reflexivity.
Qed.

Lemma dialogue_appends_two_witness :
  exists response w',
    handle_user_query "What exercises help?"
      {| session_state := set_messages (Some []) initial_session;
         random := random fresh_world; page := [] |} = (Ok tt, w') /\
    messages (session_state w') =
      Some [ {| role := "user"; content := "What exercises help?" |};
             {| role := "assistant"; content := response |} ].
Proof.
  destruct (dialogue_appends_two "What exercises help?"
              {| session_state := set_messages (Some []) initial_session;
                 random := random fresh_world; page := [] |} [] eq_refl)
    as [response [w' [Hrun [_ Hs]]]].
  exists response, w'. split; [exact Hrun|].
  rewrite Hs. reflexivity.
Defined.

Lemma not_report_generated (s : session) :
  Spec.workflow_state s <> Spec.ReportGenerated <-> report_generated s = false.
Proof.
  unfold Spec.workflow_state.
  destruct (report_generated s); split; intros Hn; try congruence.
  destruct (risk_score s); [discriminate|].
  destruct (symptoms s), (tapping_data s); discriminate.
Qed.

(** C5: as long as no report was generated, the assistant page shows the
    guidance message and stops there.  The run ends normally, the session
    (risk score, symptoms, taps, history) is the one it started with, and
    the responder did not run: the generator has not moved and no chat
    message is shown. *)
Theorem assistant_needs_report (rt : Runtime) (inp : inputs) (w : world) :
  Spec.workflow_state (session_state w) <> Spec.ReportGenerated ->
  show_personalize inp w =
    (Ok tt,
     {| session_state := session_state w;
        random := random w;
        page := page w ++
                [ Header "Personalized Care Plan";
                  Warning "Please generate a report in the Connect section first." ] |}).
Proof.
  intros Hstate. apply not_report_generated in Hstate.
  unfold show_personalize, bind, emit, get_session.
  cbn [session_state random page]. rewrite Hstate.
  cbn [negb session_state random page].
  rewrite <- app_assoc. reflexivity.
Qed.

Lemma assistant_needs_report_witness :
  fst (show_personalize (@quiet_inputs toy_runtime tt) fresh_world) = Ok tt /\
  session_state
    (snd (show_personalize (@quiet_inputs toy_runtime tt) fresh_world)) =
  initial_session.
Proof.
  assert (Hstate : Spec.workflow_state (session_state fresh_world) <>
                   Spec.ReportGenerated) by discriminate.
  rewrite (assistant_needs_report toy_runtime (@quiet_inputs toy_runtime tt)
             fresh_world Hstate).
  split; reflexivity.
Defined.

(** ** Reports *)

Lemma subseq_incl {A} (k l : list A) : subseq k l -> incl k l.
Proof.
  induction 1 as [l | x k l _ IH | x k l _ IH]; intros y Hy.
  - contradiction.
  - right. now apply IH.
  - destruct Hy as [<-|Hy]; [now left | right; now apply IH].
Qed.

Lemma dict_get_absent {V} (d : dict V) (k : string) :
  ~ In k (keys d) -> dict_get d k = None.
Proof.
  induction d as [|[k' v] d IH]; simpl; intros Hnot; [reflexivity|].
  destruct (String.eqb_spec k' k) as [->|_].
  - exfalso. apply Hnot. now left.
  - apply IH. intros Hin. apply Hnot. now right.
Qed.

Lemma positive_symptoms_cons (k v : string) (d : dict string) :
  positive_symptoms ((k, v) :: d) =
  if String.eqb v "Yes" then k :: positive_symptoms d else positive_symptoms d.
Proof.
  unfold positive_symptoms. cbn [filter snd].
  destruct (String.eqb v "Yes"); reflexivity.
Qed.

(** A dict whose keys follow a duplicate-free list has its positive ids
    in the order of that list. *)
Lemma positive_symptoms_follow (l : list string) (d : dict string) :
  NoDup l ->
  subseq (keys d) l ->
  positive_symptoms d = filter (Spec.answered_yes d) l.
Proof.
  intros Hnd Hsub. remember (keys d) as k eqn:Hk.
  revert d Hk. induction Hsub as [l | x k l Hsub IH | x k l Hsub IH];
    intros d Hk.
  - destruct d; [|discriminate]. clear.
    induction l as [|y l IH]; [reflexivity | exact IH].
  - inversion Hnd as [|? ? Hx Hnd']; subst.
    cbn [filter]. unfold Spec.answered_yes at 1.
    rewrite dict_get_absent.
    + now apply IH.
    + intros Hin. apply Hx. now apply (subseq_incl _ _ Hsub).
  - inversion Hnd as [|? ? Hx Hnd']; subst.
    destruct d as [|[x' v] d]; [discriminate|].
    injection Hk as -> ->.
    rewrite positive_symptoms_cons. cbn [filter].
    unfold Spec.answered_yes at 1. cbn [dict_get]. rewrite String.eqb_refl.
    assert (Htail : filter (Spec.answered_yes ((x', v) :: d)) l =
                    filter (Spec.answered_yes d) l).
    { apply filter_ext_in. intros id Hid. unfold Spec.answered_yes. cbn [dict_get].
      destruct (String.eqb_spec x' id) as [->|_]; [contradiction | reflexivity]. }
    rewrite Htail, <- (IH Hnd' d eq_refl).
    reflexivity.
Qed.

Lemma catalog_ids_distinct : NoDup catalog_ids.
Proof.
  unfold catalog_ids. simpl.
  repeat constructor; simpl; intuition discriminate.
Qed.

Lemma in_positive_symptoms (d : dict string) (id : string) :
  In id (positive_symptoms d) <-> In (id, "Yes") d.
Proof.
  unfold positive_symptoms. rewrite in_map_iff. split.
  - intros [[k v] [Hk Hin]]. simpl in Hk. subst k.
    apply filter_In in Hin. destruct Hin as [Hin Hyes]. simpl in Hyes.
    apply String.eqb_eq in Hyes. now subst v.
  - intros Hin. exists (id, "Yes"). split; [reflexivity|].
    apply filter_In. split; [exact Hin | reflexivity].
Qed.

Lemma positive_symptoms_subseq (d : dict string) :
  subseq (positive_symptoms d) (keys d).
Proof.
  induction d as [|[k v] d IH]; [constructor|].
  rewrite positive_symptoms_cons. cbn [keys map fst].
  destruct (String.eqb v "Yes"); now constructor.
Qed.

Lemma append_assoc (a b c : string) :
  ((a ++ b) ++ c)%string = (a ++ b ++ c)%string.
Proof.
  induction a as [|x a IH]; simpl; [reflexivity | now rewrite IH].
Qed.

Lemma text_report_shows_line (rt : Runtime) (symptoms : dict string)
      (score : pynum) (now : datetime) :
  Spec.substring (symptoms_line symptoms)
                 (generate_text_report symptoms score now).
Proof.
  unfold Spec.substring, generate_text_report.
  exists ("NeuroBridge Health Report" ++ nl ++
          "Generated on: " ++ strftime now "%Y-%m-%d %H:%M" ++ nl ++
          nl ++
          "Risk Score: " ++ py_str score ++ "%" ++ nl ++
          nl ++
          "Symptoms reported:" ++ nl)%string.
  eexists.
  repeat rewrite append_assoc. reflexivity.
Qed.

(** C8, as stated, fails: a mapping that holds rigidity before tremor is
    listed as "rigidity, tremor", while the catalog has tremor first. *)
Lemma summary_not_in_catalog_order :
  well_formed [("rigidity", "Yes"); ("tremor", "Yes")] /\
  incl (keys [("rigidity", "Yes"); ("tremor", "Yes")]) catalog_ids /\
  symptoms_line [("rigidity", "Yes"); ("tremor", "Yes")] = "rigidity, tremor" /\
  Spec.positive_in_catalog_order [("rigidity", "Yes"); ("tremor", "Yes")] =
    ["tremor"; "rigidity"] /\
  positive_symptoms [("rigidity", "Yes"); ("tremor", "Yes")] <>
  Spec.positive_in_catalog_order [("rigidity", "Yes"); ("tremor", "Yes")].
Proof.
  split.
  { unfold well_formed. simpl. repeat constructor; simpl; intuition discriminate. }
  split.
  { intros x [<-|[<-|[]]]; simpl; tauto. }
  split; [reflexivity|]. split; [reflexivity|].
  discriminate.
Qed.

(** C8, amended: the text summary lists the symptom ids whose response is
    "Yes" and no other, joined by ", " in the order in which the mapping
    of responses holds them; that is the order of the catalog whenever the
    keys of the mapping follow the catalog, as they do after the checklist
    page filled it.  When no response is positive the text shows "None"
    in their place. *)
Theorem text_summary_positive_symptoms (rt : Runtime) (symptoms : dict string)
        (score : pynum) (now : datetime) :
  Spec.substring (symptoms_line symptoms)
                 (generate_text_report symptoms score now) /\
  (forall id, In id (positive_symptoms symptoms) <-> In (id, "Yes") symptoms) /\
  subseq (positive_symptoms symptoms) (keys symptoms) /\
  symptoms_line symptoms =
    match positive_symptoms symptoms with
    | [] => "None"
    | ps => String.concat ", " ps
    end /\
  (positive_symptoms symptoms = [] ->
   Spec.substring "None" (generate_text_report symptoms score now)) /\
  (subseq (keys symptoms) catalog_ids ->
   positive_symptoms symptoms = Spec.positive_in_catalog_order symptoms).
Proof.
  split; [apply text_report_shows_line|].
  split; [apply in_positive_symptoms|].
  split; [apply positive_symptoms_subseq|].
  split; [reflexivity|].
  split.
  - intros Hnone.
    pose proof (text_report_shows_line rt symptoms score now) as Hline.
    unfold symptoms_line in Hline. now rewrite Hnone in Hline.
  - intros Hsub.
    apply (positive_symptoms_follow catalog_ids symptoms catalog_ids_distinct Hsub).
Qed.

Lemma text_summary_positive_symptoms_witness :
  positive_symptoms [("tremor", "Yes"); ("rigidity", "No"); ("gait", "Yes")] =
  Spec.positive_in_catalog_order
    [("tremor", "Yes"); ("rigidity", "No"); ("gait", "Yes")] /\
  Spec.substring "None"
    (@generate_text_report toy_runtime [("tremor", "No")] (PyInt 0) tt).
Proof.
  split.
  - apply (proj2 (proj2 (proj2 (proj2 (proj2
             (text_summary_positive_symptoms toy_runtime
                [("tremor", "Yes"); ("rigidity", "No"); ("gait", "Yes")]
                (PyInt 20) tt)))))).
    unfold catalog_ids. simpl.
    repeat first [apply subseq_nil | apply subseq_take | apply subseq_skip].
  - apply (proj1 (proj2 (proj2 (proj2 (proj2
             (text_summary_positive_symptoms toy_runtime
                [("tremor", "No")] (PyInt 0) tt)))))).
    reflexivity.
Defined.

(** The loop of the checklist page leaves the keys of the responses in
    the order of the catalog, on a fresh session and on a session it
    filled before. *)
Lemma checklist_in_catalog_order (rt : Runtime) (inp : inputs) (w : world) :
  keys (symptoms (session_state w)) = [] \/
  keys (symptoms (session_state w)) = catalog_ids ->
  keys (symptoms (session_state (snd
    (for_each load_symptom_checklist (fun sq =>
       let symptom := fst sq in
       let answer := if radio_yes inp symptom then "Yes" else "No" in
       modify_session (fun s =>
         set_symptoms (dict_set (symptoms s) symptom answer) s)) w)))) =
  catalog_ids.
Proof.
  destruct w as [[score d taps gen msgs] g pg]. cbn [session_state symptoms].
  intros [Hk|Hk].
  - destruct d; [|discriminate]. reflexivity.
  - unfold catalog_ids in Hk. cbn [map fst load_symptom_checklist] in Hk.
    repeat (destruct d as [|[? ?] d]; [discriminate|];
            cbn [keys map fst] in Hk; injection Hk as -> Hk).
    destruct d; [|discriminate]. reflexivity.
Qed.

(** C9: the structured report is the JSON text of a dict with the four
    fields risk_score, symptoms, date and recommendations, in this order:
    the score as given, a copy of the responses with their ids and
    answers, the date, and the same three recommendations whatever the
    score. *)
Theorem structured_report_fields (rt : Runtime) (symptoms : dict string)
        (score : pynum) (now : datetime) :
  generate_report symptoms score now =
    json_dumps (JObj (report_dict symptoms score now)) 2 /\
  keys (report_dict symptoms score now) =
    ["risk_score"; "symptoms"; "date"; "recommendations"] /\
  dict_get (report_dict symptoms score now) "risk_score" = Some (JNum score) /\
  (exists snapshot,
      dict_get (report_dict symptoms score now) "symptoms" = Some (JObj snapshot) /\
      keys snapshot = keys symptoms /\
      length snapshot = length symptoms /\
      forall id, dict_get snapshot id = option_map JStr (dict_get symptoms id)) /\
  dict_get (report_dict symptoms score now) "date" =
    Some (JStr (str_datetime now)) /\
  (forall score',
      dict_get (report_dict symptoms score' now) "recommendations" =
      Some (JArr (map JStr recommendations))) /\
  length recommendations = 3%nat.
Proof.
  repeat split; try reflexivity.
  exists (map (fun sv => (fst sv, JStr (snd sv))) symptoms).
  split; [reflexivity|]. split; [|split].
  - unfold keys. rewrite map_map. reflexivity.
  - apply length_map.
  - intros id. induction symptoms as [|[k v] d IH]; [reflexivity|].
    cbn [map fst snd dict_get].
    destruct (String.eqb k id); [reflexivity | exact IH].
Qed.


(** * Further properties of the code *)

(** ** The feature extractor: what the timestamps may and may not change *)

Lemma diff_shift (c : R) (taps : list R) :
  np.diff (map (fun t => (t + c)%R) taps) = np.diff taps.
Proof.
  induction taps as [|x [|y tl] IH]; try reflexivity.
  change (((y + c) - (x + c))%R :: np.diff (map (fun t => (t + c)%R) (y :: tl)) =
          (y - x)%R :: np.diff (y :: tl)).
  rewrite IH. f_equal. ring.
Qed.

(** The features depend on the gaps between the taps, not on when the
    test began: moving every timestamp by the same amount changes
    nothing. *)
Theorem features_ignore_start_time (c : R) (taps : list R) :
  process_tapping_data (map (fun t => (t + c)%R) taps) =
  process_tapping_data taps.
Proof.
  unfold process_tapping_data.
  rewrite length_map, diff_shift. reflexivity.
Qed.


Lemma sum_repeat (d : R) (n : nat) :
  np.sum (repeat d n) = (INR n * d)%R.
Proof.
  unfold np.sum. induction n as [|n IH].
  - simpl. ring.
  - cbn [repeat fold_right]. rewrite IH, S_INR. ring.
Qed.

Lemma mean_repeat (d : R) (n : nat) :
  (0 < n)%nat -> np.mean (repeat d n) = d.
Proof.
  intros Hn. unfold np.mean, np.len.
  rewrite sum_repeat, repeat_length.
  field. apply not_0_INR. lia.
Qed.

Lemma std_repeat (d : R) (n : nat) :
  (0 < n)%nat -> np.std (repeat d n) = 0%R.
Proof.
  intros Hn. unfold np.std, np.var.
  rewrite (mean_repeat d n Hn), map_repeat.
  replace (Rsqr (Rabs (d - d))) with 0%R
    by (replace (d - d)%R with 0%R by ring; rewrite Rabs_R0; unfold Rsqr; ring).
  rewrite (mean_repeat 0 n Hn). apply sqrt_0.
Qed.



Lemma timing_features_invariant_witness :
  (0 <= value (mean_interval (process_tapping_data [0; 1; 3]%R)))%R.
Proof.
  assert (Hmono : Spec.non_decreasing [0; 1; 3]%R).
  { intros i Hi. simpl in Hi.
    destruct i as [|[|i]]; simpl; try lra; lia. }
  exact (proj1 (timing_features_invariant [0; 1; 3]%R Hmono)).
Defined.

Lemma sum_scale (k : R) (xs : list R) :
  np.sum (map (fun x => (k * x)%R) xs) = (k * np.sum xs)%R.
Proof.
  unfold np.sum. induction xs as [|x xs IH]; simpl.
  - ring.
  - rewrite IH. ring.
Qed.

Lemma diff_scale (k : R) (taps : list R) :
  np.diff (map (fun t => (k * t)%R) taps) = map (fun x => (k * x)%R) (np.diff taps).
Proof.
  induction taps as [|x [|y tl] IH]; try reflexivity.
  change ((k * y - k * x)%R :: np.diff (map (fun t => (k * t)%R) (y :: tl)) =
          (k * (y - x))%R :: map (fun x => (k * x)%R) (np.diff (y :: tl))).
  rewrite IH. f_equal. ring.
Qed.

Lemma mean_scale (k : R) (xs : list R) :
  np.mean (map (fun x => (k * x)%R) xs) = (k * np.mean xs)%R.
Proof.
  unfold np.mean, np.len. rewrite sum_scale, length_map.
  unfold Rdiv. ring.
Qed.

Lemma var_nonneg (xs : list R) : (0 <= np.var xs)%R.
Proof.
  unfold np.var, np.mean, np.len.
  apply Rmult_le_pos.
  - apply sum_nonneg. intros i Hi.
    rewrite length_map in Hi.
    rewrite (nth_indep _ 0%R (Rsqr (Rabs (0 - np.sum xs / INR (length xs)))))
      by (now rewrite length_map).
    rewrite (map_nth (fun x => Rsqr (Rabs (x - np.sum xs / INR (length xs))))).
    apply Rle_0_sqr.
  - destruct xs as [|x xs].
    + simpl. rewrite Rinv_0. lra.
    + left. apply Rinv_0_lt_compat. apply lt_0_INR. simpl. lia.
Qed.

Lemma std_scale (k : R) (xs : list R) :
  (0 <= k)%R ->
  np.std (map (fun x => (k * x)%R) xs) = (k * np.std xs)%R.
Proof.
  intros Hk. unfold np.std.
  assert (Hvar : np.var (map (fun x => (k * x)%R) xs) = (Rsqr k * np.var xs)%R).
  { unfold np.var. rewrite mean_scale, map_map.
    rewrite <- (mean_scale (Rsqr k)). rewrite map_map. f_equal.
    apply map_ext. intros x.
    replace (k * x - k * np.mean xs)%R with (k * (x - np.mean xs))%R by ring.
    rewrite Rabs_mult, Rsqr_mult, <- (Rsqr_abs k). reflexivity. }
  rewrite Hvar, sqrt_mult by (try apply Rle_0_sqr; apply var_nonneg).
  rewrite sqrt_Rsqr by exact Hk. reflexivity.
Qed.

(** Stretching time by a factor stretches the mean interval and the
    deviation by the same factor: the same rhythm tapped twice as slowly
    counts as twice as irregular. *)
Theorem features_scale_with_time (k : R) (taps : list R) :
  (0 <= k)%R ->
  (2 <= length taps)%nat ->
  let slow := process_tapping_data (map (fun t => (k * t)%R) taps) in
  let f := process_tapping_data taps in
  value (mean_interval slow) = (k * value (mean_interval f))%R /\
  value (std_interval slow) = (k * value (std_interval f))%R /\
  value (risk_contribution slow) = Rmin 50 (k * value (std_interval f) * 100).
Proof.
  intros Hk Hlen slow f. subst slow f.
  assert (Hlen' : (2 <= length (map (fun t => (k * t)%R) taps))%nat)
    by (now rewrite length_map).
  rewrite (contribution_value _ Hlen').
  rewrite (process_long _ Hlen'), (process_long taps Hlen).
  cbn [mean_interval std_interval value].
  rewrite diff_scale, mean_scale, (std_scale k _ Hk).
  repeat split; reflexivity.
Qed.

Lemma features_scale_with_time_witness :
  value (std_interval (process_tapping_data (map (fun t => (2 * t)%R) [0; 1; 3]%R))) =
  (2 * value (std_interval (process_tapping_data [0; 1; 3]%R)))%R.
Proof.
  assert (Hk : (0 <= 2)%R) by lra.
  assert (Hlen : (2 <= length [0; 1; 3]%R)%nat) by (simpl; lia).
  exact (proj1 (proj2 (features_scale_with_time 2 [0; 1; 3]%R Hk Hlen))).
Defined.

(** ** The two scoring rules *)

Lemma std_single (x : R) : np.std [x] = 0%R.
Proof. apply (std_repeat x 1). lia. Qed.

Lemma Rmin_caps (a : R) :
  (Rmin 40 a <= Rmin 50 a <= Rmin 40 a + 10)%R.
Proof.
  unfold Rmin.
  destruct (Rle_dec 40 a), (Rle_dec 50 a); lra.
Qed.

Lemma Rmin_100_shift (a c1 c2 : R) :
  (c1 <= c2 <= c1 + 10)%R ->
  (Rmin 100 (a + c1) <= Rmin 100 (a + c2) <= Rmin 100 (a + c1) + 10)%R.
Proof.
  intros Hc. unfold Rmin.
  destruct (Rle_dec 100 (a + c1)), (Rle_dec 100 (a + c2)); lra.
Qed.

(** The value of [predict_risk]: the variability counts from three taps
    on and is capped at 40. *)
Lemma predict_risk_value {Model : Type} (model : Model) (symptoms : dict string)
      (tapping_data : option (list R)) :
  value (predict_risk model symptoms tapping_data) =
  Rmin 100 (10 * INR (Spec.yes_count symptoms) +
            match tapping_data with
            | Some taps =>
                if (2 <? length taps)%nat
                then Rmin 40 (np.std (np.diff taps) * 100)
                else 0
            | None => 0
            end).
Proof.
  unfold predict_risk.
  rewrite py_min_value. cbn [value]. f_equal.
  destruct tapping_data as [[|t ts]|].
  - rewrite symptom_component_value. cbn. ring.
  - rewrite diff_length.
    destruct (Nat.ltb_spec 1 (length (t :: ts) - 1)) as [Hlt|Hge];
      destruct (Nat.ltb_spec 2 (length (t :: ts))) as [Hlt'|Hge']; try lia.
    + rewrite py_add_value, symptom_component_value, py_min_value. reflexivity.
    + rewrite symptom_component_value. ring.
  - rewrite symptom_component_value. ring.
Qed.

Lemma variability_vs_contribution (tapping_data : option (list R)) :
  let c := match tapping_data with
           | Some taps =>
               if (2 <? length taps)%nat
               then Rmin 40 (np.std (np.diff taps) * 100)
               else 0%R
           | None => 0%R
           end in
  (0 <= c <= 40)%R /\
  (c <= Spec.timing_contribution tapping_data <= c + 10)%R /\
  ((forall taps, tapping_data = Some taps -> (length taps < 3)%nat) ->
   Spec.timing_contribution tapping_data = c).
Proof.
  destruct tapping_data as [taps|]; cbn zeta.
  2:{ simpl. repeat split; try lra. }
  unfold Spec.timing_contribution.
  destruct (Nat.ltb_spec 2 (length taps)) as [Hlt|Hge].
  - rewrite contribution_value by lia.
    pose proof (std_nonneg (np.diff taps)) as Hs.
    pose proof (Rmin_caps (np.std (np.diff taps) * 100)) as Hcaps.
    repeat split; try apply Hcaps.
    + apply Rmin_glb; lra.
    + apply Rmin_l.
    + intros Hshort. specialize (Hshort taps eq_refl). lia.
  - assert (Hzero : value (risk_contribution (process_tapping_data taps)) = 0%R).
    { destruct taps as [|x [|y [|z tl]]]; try (simpl in Hge; lia).
      - reflexivity.
      - reflexivity.
      - rewrite contribution_value by (simpl; lia).
        cbn [np.diff]. rewrite std_single. rewrite Rmin_right; lra. }
    rewrite Hzero. repeat split; try lra.
Qed.

(** [predict_risk] stays in [0, 100] for every dict of answers, also one
    with more than ten positive answers, and for every list of taps. *)
Theorem predict_risk_in_range {Model : Type} (model : Model)
        (symptoms : dict string) (tapping_data : option (list R)) :
  (0 <= value (predict_risk model symptoms tapping_data) <= 100)%R.
Proof.
  rewrite predict_risk_value.
  pose proof (pos_INR (Spec.yes_count symptoms)) as Hpos.
  destruct (variability_vs_contribution tapping_data) as [[Hc0 _] _].
  split.
  - apply Rmin_glb; lra.
  - apply Rmin_l.
Qed.

(** The rule of [predict_risk] against the score the app stores, for
    responses over the catalog: the app's score is never the smaller one
    and exceeds the other by at most 10 (its cap on the timing part is 50
    where the other's is 40); with no taps or fewer than three the two
    agree. *)
Theorem predict_risk_vs_stored_score {Model : Type} (model : Model)
        (symptoms : dict string) (tapping_data : option (list R)) :
  well_formed symptoms ->
  incl (keys symptoms) catalog_ids ->
  let predicted := value (predict_risk model symptoms tapping_data) in
  let stored := value (analyze_results symptoms tapping_data) in
  (predicted <= stored <= predicted + 10)%R /\
  ((forall taps, tapping_data = Some taps -> (length taps < 3)%nat) ->
   predicted = stored).
Proof.
  intros Hwf Hincl predicted stored. subst predicted stored.
  destruct (composite_score_bounds symptoms tapping_data Hwf Hincl) as [Hval _].
  rewrite Hval, predict_risk_value.
  destruct (variability_vs_contribution tapping_data) as [_ [Hc Heq]].
  split.
  - now apply Rmin_100_shift.
  - intros Hshort. now rewrite (Heq Hshort).
Qed.

Lemma predict_risk_vs_stored_score_witness :
  value (predict_risk tt [("tremor", "Yes")] (Some [0; 1]%R)) =
  value (analyze_results [("tremor", "Yes")] (Some [0; 1]%R)).
Proof.
  assert (Hwf : well_formed [("tremor", "Yes")]).
  { unfold well_formed. simpl. repeat constructor. simpl. tauto. }
  assert (Hincl : incl (keys [("tremor", "Yes")]) catalog_ids).
  { intros x [<-|[]]. simpl. tauto. }
  apply (proj2 (predict_risk_vs_stored_score tt [("tremor", "Yes")]
                  (Some [0; 1]%R) Hwf Hincl)).
  intros taps Htaps. injection Htaps as <-. simpl. lia.
Defined.

Lemma yes_count_cons (k v : string) (d : dict string) :
  Spec.yes_count ((k, v) :: d) =
  ((if String.eqb v "Yes" then 1 else 0) + Spec.yes_count d)%nat.
Proof.
  unfold Spec.yes_count. cbn [values map snd filter].
  destruct (String.eqb v "Yes"); reflexivity.
Qed.

Lemma yes_count_after_yes (d : dict string) (k : string) :
  (Spec.yes_count d <= Spec.yes_count (dict_set d k "Yes")
   <= Spec.yes_count d + 1)%nat.
Proof.
  induction d as [|[k' v'] d IH]; cbn [dict_set].
  - rewrite yes_count_cons. cbn. lia.
  - destruct (String.eqb k' k); rewrite !yes_count_cons.
    + cbn [String.eqb]. destruct (String.eqb v' "Yes"); cbn; lia.
    + lia.
Qed.

(** Answering Yes to one more question, or again to the same one, never
    lowers the stored score and raises it by 10 at most. *)
Theorem one_more_yes (symptoms : dict string) (symptom : string)
        (tapping_data : option (list R)) :
  let before := value (analyze_results symptoms tapping_data) in
  let after := value (analyze_results (dict_set symptoms symptom "Yes")
                                      tapping_data) in
  (before <= after <= before + 10)%R.
Proof.
  intros before after. subst before after.
  rewrite !analyze_results_value.
  destruct (yes_count_after_yes symptoms symptom) as [Hlo Hhi].
  apply le_INR in Hlo. apply le_INR in Hhi.
  rewrite plus_INR in Hhi. change (INR 1) with 1%R in Hhi.
  destruct (truthy tapping_data).
  - unfold Rmin.
    destruct (Rle_dec 100 _), (Rle_dec 100 _); lra.
  - lra.
Qed.

(** ** The rule-based responder, further *)





Lemma random_choice_run (seq : list string) (w : world) :
  seq <> [] ->
  random_choice seq w =
    (Ok (nth (draws (random w) (cursor (random w)) mod length seq) seq EmptyString),
     {| session_state := session_state w;
        random := {| draws := draws (random w);
                     cursor := S (cursor (random w)) |};
        page := page w |}).
Proof.
  intros Hne. destruct seq as [|x seq]; [congruence | reflexivity].
Qed.

(** The responder never fails.  It answers with one of the thirteen
    written responses, draws exactly one number from the generator, and
    leaves the session and the page alone. *)
Theorem responder_always_answers (query : string) (risk : option pynum)
        (w : world) :
  exists r,
    get_response query risk w =
      (Ok r,
       {| session_state := session_state w;
          random := {| draws := draws (random w);
                       cursor := S (cursor (random w)) |};
          page := page w |}) /\
    In r (concat (map snd RESPONSE_RULES) ++ DEFAULT_RESPONSES).
Proof.
  unfold get_response.
  assert (Hgen : forall rules,
             (forall pr, In pr rules -> snd pr <> []) ->
             exists r,
               first_match rules (lower query) w =
                 (Ok r,
                  {| session_state := session_state w;
                     random := {| draws := draws (random w);
                                  cursor := S (cursor (random w)) |};
                     page := page w |}) /\
               In r (concat (map snd rules) ++ DEFAULT_RESPONSES)).
  { induction rules as [|[p rs] rules IH]; intros Hne; cbn [first_match].
    - eexists. split; [apply random_choice_run; discriminate|].
      apply nth_In. apply Nat.mod_upper_bound. discriminate.
    - destruct (re_search p (lower query)).
      + assert (Hrs : rs <> []) by (apply (Hne (p, rs)); now left).
        eexists. split; [apply random_choice_run; exact Hrs|].
        cbn [map snd concat]. apply in_or_app. left. apply in_or_app. left.
        apply nth_In. apply Nat.mod_upper_bound.
        destruct rs; [congruence | discriminate].
      + destruct IH as [r [Hrun Hin]].
        { intros pr Hpr. apply Hne. now right. }
        exists r. split; [exact Hrun|].
        cbn [map snd concat]. rewrite <- app_assoc.
        apply in_or_app. now right. }
  apply Hgen. apply rules_nonempty.
Qed.

(** ** chatbot.py *)

Lemma dict_get_in_values {V} (d : dict V) (k : string) (v : V) :
  dict_get d k = Some v -> In v (values d).
Proof.
  induction d as [|[k' v'] d IH]; simpl; [discriminate|].
  destruct (String.eqb k' k).
  - intros [= ->]. now left.
  - intros Hget. right. now apply IH.
Qed.

Lemma dict_get_present {V} (d : dict V) (k : string) (v : V) :
  well_formed d -> In (k, v) d -> dict_get d k = Some v.
Proof.
  unfold well_formed.
  induction d as [|[k' v'] d IH]; simpl; intros Hnd Hin; [contradiction|].
  inversion Hnd as [|? ? Hnot Hnd']; subst.
  destruct Hin as [[= -> ->]|Hin].
  - now rewrite String.eqb_refl.
  - destruct (String.eqb_spec k' k) as [->|_].
    + exfalso. apply Hnot. change k with (fst (k, v)). now apply in_map.
    + now apply IH.
Qed.





(** The chatbot never fails on a lookup: every message gets one of the
    seven written replies. *)
Theorem chatbot_always_replies (message : string) :
  exists reply,
    HealthChatbot.get_response message = Some reply /\
    In reply (values HealthChatbot.responses).
Proof.
  unfold HealthChatbot.get_response.
  assert (Hgen : forall ks,
             incl ks (keys HealthChatbot.responses) ->
             exists reply,
               HealthChatbot.scan HealthChatbot.responses ks (lower message) =
                 Some reply /\
               In reply (values HealthChatbot.responses)).
  { assert (Hkey : forall k, In k (keys HealthChatbot.responses) ->
                             exists reply,
                               dict_get HealthChatbot.responses k = Some reply /\
                               In reply (values HealthChatbot.responses)).
    { intros k Hk. simpl in Hk.
      destruct Hk as [<-|[<-|[<-|[<-|[<-|[<-|[<-|[]]]]]]]];
        (eexists; split; [reflexivity | simpl; tauto]). }
    induction ks as [|k ks IH]; intros Hincl; cbn [HealthChatbot.scan].
    - apply Hkey. simpl. tauto.
    - destruct (contains k (lower message)).
      + apply Hkey. apply Hincl. now left.
      + apply IH. intros k' Hk'. apply Hincl. now right. }
  apply Hgen. apply incl_refl.
Qed.





(** ** The pages *)

Lemma bind_post {A B} (c : M A) (k : A -> M B) (Q : A -> world -> Prop)
      (Post : outcome B * world -> Prop) (w : world) :
  (exists a w', c w = (Ok a, w') /\ Q a w') ->
  (forall a w', Q a w' -> Post (k a w')) ->
  Post (bind c k w).
Proof.
  intros [a [w' [Hrun HQ]]] Hk. unfold bind. rewrite Hrun. now apply Hk.
Qed.

Lemma for_each_inv {A} (Inv : world -> Prop) (l : list A) (body : A -> M unit) :
  (forall x w, Inv w -> exists w', body x w = (Ok tt, w') /\ Inv w') ->
  forall w, Inv w -> exists w', for_each l body w = (Ok tt, w') /\ Inv w'.
Proof.
  intros Hbody. induction l as [|x l IH]; intros w Hw; cbn [for_each].
  - exists w. split; [reflexivity | exact Hw].
  - destruct (Hbody x w Hw) as [w1 [Hrun H1]].
    unfold bind. rewrite Hrun. now apply IH.
Qed.

Lemma set_symptoms_same (s : session) : set_symptoms (symptoms s) s = s.
Proof. now destruct s. Qed.

Lemma checklist_loop (rt : Runtime) (inp : inputs) (w : world) :
  for_each load_symptom_checklist (fun sq =>
    let symptom := fst sq in
    let answer := if radio_yes inp symptom then "Yes" else "No" in
    modify_session (fun s =>
      set_symptoms (dict_set (symptoms s) symptom answer) s)) w =
  (Ok tt,
   {| session_state :=
        set_symptoms (answer_all inp (symptoms (session_state w))) (session_state w);
      random := random w;
      page := page w |}).
Proof.
  unfold answer_all. generalize load_symptom_checklist as l.
  intros l. revert w. induction l as [|sq l IH]; intros w; cbn [for_each fold_left].
  - unfold ret. rewrite set_symptoms_same. now destruct w.
  - unfold bind at 1. unfold modify_session, bind, get_session, put_session.
    rewrite IH. cbn [session_state random page symptoms set_symptoms].
    reflexivity.
Qed.

Ltac page_step :=
  cbn [session_state random page symptoms set_symptoms risk_score
       tapping_data report_generated messages set_tapping_data
       set_risk_score set_report_generated set_messages].

(** [show_detect] ends normally, leaves the generator alone, and leaves
    the session that [after_detect] describes. *)
Lemma show_detect_run (rt : Runtime) (inp : inputs) (w : world) :
  exists pg,
    show_detect inp w =
      (Ok tt, {| session_state := after_detect inp (session_state w);
                 random := random w; page := pg |}).
Proof.
  unfold show_detect.
  do 3 (unfold bind at 1; cbn [emit session_state random page]).
  unfold bind at 1. rewrite checklist_loop. cbn [session_state random page].
  unfold bind at 1; cbn [emit session_state random page].
  unfold after_detect, run_tapping_test.
  destruct (session_state w) as [score d taps gen msgs]. page_step.
  destruct (button inp "start_tapping"), (button inp "tap_button"),
    (button inp "Analyze Results");
    unfold bind, modify_session, bind, get_session,
      put_session, emit, ret; page_step;
    repeat match goal with
           | |- context [py_ltb ?a ?b] => destruct (py_ltb a b)
           | |- context [match ?x with Some _ => _ | None => _ end] =>
               match type of x with option (list R) => destruct x end
           | |- context [match ?x with nil => _ | cons _ _ => _ end] =>
               match type of x with list R => destruct x end
           end;
    page_step; eexists; reflexivity.
Qed.

Lemma dict_get_set_same {V} (d : dict V) (k : string) (v : V) :
  dict_get (dict_set d k v) k = Some v.
Proof.
  induction d as [|[k' v'] d IH]; cbn [dict_set dict_get].
  - now rewrite String.eqb_refl.
  - destruct (String.eqb k' k) eqn:Hk; cbn [dict_get]; rewrite Hk;
      [reflexivity | exact IH].
Qed.

Lemma dict_get_set_other {V} (d : dict V) (k k' : string) (v : V) :
  k <> k' -> dict_get (dict_set d k' v) k = dict_get d k.
Proof.
  intros Hne. induction d as [|[k0 v0] d IH]; cbn [dict_set dict_get].
  - destruct (String.eqb_spec k' k); [congruence | reflexivity].
  - destruct (String.eqb_spec k0 k') as [->|Hk]; cbn [dict_get].
    + destruct (String.eqb_spec k' k); [congruence | reflexivity].
    + destruct (String.eqb k0 k); [reflexivity | exact IH].
Qed.

Lemma dict_get_fold_set (ans : string -> string) (l : list (string * string))
      (d : dict string) (id : string) :
  NoDup (map fst l) ->
  dict_get (fold_left (fun d sq => dict_set d (fst sq) (ans (fst sq))) l d) id =
  if in_dec string_dec id (map fst l) then Some (ans id) else dict_get d id.
Proof.
  revert d. induction l as [|sq l IH]; intros d Hnd; cbn [fold_left map].
  - reflexivity.
  - inversion Hnd as [|? ? Hnot Hnd']; subst.
    rewrite (IH _ Hnd').
    destruct (in_dec string_dec id (map fst l)) as [Hin|Hout];
      destruct (in_dec string_dec id (fst sq :: map fst l)) as [Hin'|Hout'];
      try reflexivity.
    + exfalso. apply Hout'. now right.
    + destruct Hin' as [<-|Hin']; [|contradiction].
      apply dict_get_set_same.
    + apply dict_get_set_other. intros ->. apply Hout'. now left.
Qed.

Lemma answer_all_get (rt : Runtime) (inp : inputs) (d : dict string) (id : string) :
  dict_get (answer_all inp d) id =
  if in_dec string_dec id catalog_ids
  then Some (if radio_yes inp id then "Yes" else "No")
  else dict_get d id.
Proof.
  unfold answer_all.
  apply (dict_get_fold_set (fun id => if radio_yes inp id then "Yes" else "No")).
  apply catalog_ids_distinct.
Qed.

Lemma answer_all_keys (rt : Runtime) (inp : inputs) (d : dict string) :
  keys d = [] \/ keys d = catalog_ids ->
  keys (answer_all inp d) = catalog_ids.
Proof.
  intros [Hk|Hk].
  - destruct d; [|discriminate]. reflexivity.
  - unfold catalog_ids in Hk. cbn [map fst load_symptom_checklist] in Hk.
    repeat (destruct d as [|[? ?] d]; [discriminate|];
            cbn [keys map fst] in Hk; injection Hk as -> Hk).
    destruct d; [|discriminate]. reflexivity.
Qed.

Lemma in_values_get {V} (d : dict V) (v : V) :
  well_formed d -> In v (values d) -> exists k, In k (keys d) /\ dict_get d k = Some v.
Proof.
  intros Hwf Hin. unfold values in Hin. apply in_map_iff in Hin.
  destruct Hin as [[k v'] [Hv Hkv]]. simpl in Hv. subst v'.
  exists k. split.
  - change k with (fst (k, v)). now apply in_map.
  - now apply dict_get_present.
Qed.

Lemma answer_all_values (rt : Runtime) (inp : inputs) (d : dict string) (v : string) :
  keys d = [] \/ keys d = catalog_ids ->
  In v (values (answer_all inp d)) -> v = "Yes" \/ v = "No".
Proof.
  intros Hk Hin.
  pose proof (answer_all_keys rt inp d Hk) as Hkeys.
  assert (Hwf : well_formed (answer_all inp d)).
  { unfold well_formed. rewrite Hkeys. apply catalog_ids_distinct. }
  destruct (in_values_get _ v Hwf Hin) as [k [Hkin Hget]].
  rewrite answer_all_get in Hget. rewrite Hkeys in Hkin.
  destruct (in_dec string_dec k catalog_ids); [|contradiction].
  destruct (radio_yes inp k); injection Hget as <-; tauto.
Qed.

Lemma after_detect_symptoms (rt : Runtime) (inp : inputs) (s : session) :
  symptoms (after_detect inp s) = answer_all inp (symptoms s).
Proof.
  unfold after_detect.
  destruct (button inp "start_tapping"), (button inp "tap_button"),
    (button inp "Analyze Results"); reflexivity.
Qed.


Lemma show_connect_run (rt : Runtime) (inp : inputs) (w : world) :
  exists pg,
    show_connect inp w =
      (Ok tt,
       {| session_state :=
            match risk_score (session_state w) with
            | Some _ => set_report_generated true (session_state w)
            | None => session_state w
            end;
          random := random w; page := pg |}).
Proof.
  unfold show_connect, bind, emit, get_session, modify_session, bind,
    get_session, put_session.
  cbn [session_state random page].
  destruct (risk_score (session_state w)); page_step; eexists; reflexivity.
Qed.

(** Without a risk score the report page shows its guidance message and
    stops: no report is built, the report flag stays as it is, and the
    session and the generator are untouched. *)
Theorem report_needs_assessment (rt : Runtime) (inp : inputs) (w : world) :
  risk_score (session_state w) = None ->
  show_connect inp w =
    (Ok tt,
     {| session_state := session_state w;
        random := random w;
        page := page w ++
                [ Header "Connect with Caregivers";
                  Warning "Please complete the assessment in the Detect section first." ] |}).
Proof.
  intros Hnone.
  unfold show_connect, bind, emit, get_session.
  cbn [session_state random page]. rewrite Hnone.
  cbn [session_state random page].
  rewrite <- app_assoc. reflexivity.
Qed.

Lemma report_needs_assessment_witness :
  session_state (snd (show_connect (@quiet_inputs toy_runtime tt) fresh_world)) =
  initial_session.
Proof.
  rewrite (report_needs_assessment toy_runtime (@quiet_inputs toy_runtime tt)
             fresh_world eq_refl).
  reflexivity.
Defined.



(** ** The assistant page, past its gate *)

(** One handled query, on a session that has a history. *)
Lemma handle_user_query_run (query : string) (w : world) (h : list message) :
  messages (session_state w) = Some h ->
  exists response w',
    handle_user_query query w = (Ok tt, w') /\
    session_state w' =
      set_messages
        (Some (h ++ [ {| role := "user"; content := query |};
                      {| role := "assistant"; content := response |} ]))
        (session_state w).
Proof.
  intros Hh.
  unfold handle_user_query, bind, emit, append_message, bind,
         get_session, put_session.
  cbn [session_state random page]. rewrite Hh. page_step.
  match goal with
  | |- context [get_response query ?rs ?w0] =>
      destruct (get_response_total query rs w0) as [r [g Hrun]]
  end.
  rewrite Hrun. page_step.
  eexists r, _. split; [reflexivity|].
  page_step. unfold set_messages. cbn.
  rewrite <- app_assoc. reflexivity.
Qed.

Lemma set_messages_twice (a b : option (list message)) (s : session) :
  set_messages a (set_messages b s) = set_messages a s.
Proof. reflexivity. Qed.

Lemma show_history_run (l : list message) (w : world) :
  for_each l (fun m => emit (ChatMessage (role m) (content m))) w =
  (Ok tt,
   {| session_state := session_state w;
      random := random w;
      page := page w ++ map (fun m => ChatMessage (role m) (content m)) l |}).
Proof.
  revert w. induction l as [|m l IH]; intros w; cbn [for_each map].
  - unfold ret. rewrite app_nil_r. now destruct w.
  - unfold bind, emit. rewrite IH. cbn [session_state random page].
    rewrite <- app_assoc. reflexivity.
Qed.

(** The suggested questions: each pressed button is one handled query. *)
Lemma question_buttons_run (rt : Runtime) (inp : inputs)
      (l : list (string * string)) (w : world) (h : list message) :
  messages (session_state w) = Some h ->
  exists added w',
    for_each l (fun kq =>
      if button inp (fst kq) then handle_user_query (snd kq) else ret tt) w =
      (Ok tt, w') /\
    session_state w' = set_messages (Some (h ++ added)) (session_state w) /\
    length added = (2 * length (filter (fun kq => button inp (fst kq)) l))%nat.
Proof.
  revert w h. induction l as [|kq l IH]; intros w h Hh; cbn [for_each filter].
  - exists [], w. rewrite app_nil_r. repeat split.
    destruct (session_state w); simpl in Hh; subst; reflexivity.
  - destruct (button inp (fst kq)).
    + destruct (handle_user_query_run (snd kq) w h Hh) as [r [w1 [Hrun Hs1]]].
      assert (Hh1 : messages (session_state w1) =
                    Some (h ++ [ {| role := "user"; content := snd kq |};
                                 {| role := "assistant"; content := r |} ]))
        by (now rewrite Hs1).
      destruct (IH w1 _ Hh1) as [added [w' [Hloop [Hs' Hlen]]]].
      eexists (_ ++ added), w'. unfold bind. rewrite Hrun.
      split; [exact Hloop|]. split.
      * rewrite Hs', Hs1, set_messages_twice, <- app_assoc. reflexivity.
      * rewrite length_app, Hlen. cbn [length]. lia.
    + destruct (IH w h Hh) as [added [w' [Hloop [Hs' Hlen]]]].
      exists added, w'. unfold bind, ret. split; [exact Hloop|].
      split; [exact Hs' | exact Hlen].
Qed.

Lemma pressed_questions (rt : Runtime) (inp : inputs) :
  length (filter (fun kq : string * string => button inp (fst kq))
                 (combine question_keys suggested_questions)) =
  length (filter (button inp) question_keys).
Proof.
  unfold question_keys, suggested_questions. cbn [combine filter fst].
  destruct (button inp "q_0"), (button inp "q_1"), (button inp "q_2"),
    (button inp "q_3"), (button inp "q_4"), (button inp "q_5"); reflexivity.
Qed.

(** The assistant page once a report exists: what it returns and what it
    leaves in the session. *)
Lemma show_personalize_run (rt : Runtime) (inp : inputs) (w : world) :
  report_generated (session_state w) = true ->
  let old := match messages (session_state w) with Some h => h | None => [] end in
  let asked := (length (filter (button inp) question_keys) +
                match chat_input inp with Some (String _ _) => 1 | _ => 0 end)%nat in
  exists h w',
    show_personalize inp w =
      (if button inp "🗑️ Clear Chat" then Raise RerunException else Ok tt, w') /\
    session_state w' = set_messages (Some h) (session_state w) /\
    if button inp "🗑️ Clear Chat"
    then h = []
    else exists added, h = old ++ added /\ length added = (2 * asked)%nat.
Proof.
  intros Hgen old asked.
  unfold show_personalize.
  unfold bind at 1; cbn [emit session_state random page].
  unfold bind at 1; cbn [get_session session_state random page].
  rewrite Hgen. cbn [negb].
  do 2 (unfold bind at 1; cbn [emit session_state random page]).
  unfold bind at 1.
  assert (Hinit : exists pg,
    (match messages (session_state w) with
     | Some _ => ret tt
     | None => put_session (set_messages (Some []) (session_state w))
     end)
      {| session_state := session_state w; random := random w;
         page := ((page w ++ [Header "Personalized Care Plan"]) ++
                  [Subheader "Care Plan Assistant"]) ++
                 [Info "Ask questions about your results or get personalized recommendations for improving your neurological health."] |} =
    (Ok tt, {| session_state := set_messages (Some old) (session_state w);
               random := random w; page := pg |})).
  { subst old. destruct (session_state w) as [a b c d [m|]]; eexists; reflexivity. }
  destruct Hinit as [pg Hinit]. rewrite Hinit. clear Hinit.
  unfold bind at 1; cbn [get_session session_state random page set_messages messages].
  unfold bind at 1. rewrite show_history_run. cbn [session_state random page].
  do 2 (unfold bind at 1; cbn [emit session_state random page]).
  unfold bind at 1.
  match goal with
  | |- context [for_each (combine _ _) _ ?w0] =>
      destruct (question_buttons_run rt inp
                  (combine question_keys suggested_questions) w0 old eq_refl)
        as [added1 [w1 [Hloop [Hs1 Hlen1]]]]
  end.
  rewrite Hloop. cbn [session_state] in Hs1. rewrite set_messages_twice in Hs1.
  rewrite pressed_questions in Hlen1.
  unfold bind at 1; cbn [emit session_state random page].
  unfold bind at 1.
  assert (Hchat : exists added2 w2,
    (match chat_input inp with
     | Some (String _ _ as prompt) => handle_user_query prompt
     | _ => ret tt
     end)
      {| session_state := session_state w1; random := random w1;
         page := page w1 ++ [Divider] |} = (Ok tt, w2) /\
    session_state w2 =
      set_messages (Some (old ++ added1 ++ added2)) (session_state w) /\
    length added2 =
      (2 * match chat_input inp with Some (String _ _) => 1 | _ => 0 end)%nat).
  { destruct (chat_input inp) as [[|c prompt]|].
    - exists [], {| session_state := session_state w1; random := random w1;
                    page := page w1 ++ [Divider] |}.
      rewrite app_nil_r. repeat split. exact Hs1.
    - match goal with
      | |- context [handle_user_query ?q ?w0] =>
          destruct (handle_user_query_run q w0 (old ++ added1))
            as [r [w2 [Hrun Hs2]]]
      end.
      { cbn [session_state]. now rewrite Hs1. }
      exists [ {| role := "user"; content := String c prompt |};
               {| role := "assistant"; content := r |} ], w2.
      split; [exact Hrun|]. split; [|reflexivity].
      rewrite Hs2. cbn [session_state].
      rewrite Hs1, set_messages_twice, <- app_assoc. reflexivity.
    - exists [], {| session_state := session_state w1; random := random w1;
                    page := page w1 ++ [Divider] |}.
      rewrite app_nil_r. repeat split. exact Hs1. }
  destruct Hchat as [added2 [w2 [Hchat [Hs2 Hlen2]]]]. rewrite Hchat.
  destruct (button inp "🗑️ Clear Chat").
  - unfold bind, modify_session, bind, get_session, put_session, raise.
    eexists [], _. split; [reflexivity|]. split; [|reflexivity].
    cbn [session_state]. rewrite Hs2. apply set_messages_twice.
  - unfold ret. exists (old ++ added1 ++ added2), w2.
    split; [reflexivity|]. split; [exact Hs2|].
    exists (added1 ++ added2). split; [reflexivity|].
    rewrite length_app, Hlen1, Hlen2. subst asked. lia.
Qed.

(** The assistant page once a report exists.  The run ends normally, or
    with the rerun that "Clear Chat" asks for, and in no other way; the
    risk score, the symptoms, the taps and the report flag stay as they
    are.  Without "Clear Chat" the history keeps all it had and grows by
    two entries for every suggested question pressed and for a chat
    prompt; with it the history is left empty. *)
Theorem assistant_page_effect (rt : Runtime) (inp : inputs) (w : world) :
  report_generated (session_state w) = true ->
  let s := session_state w in
  let s' := session_state (snd (show_personalize inp w)) in
  let old := match messages s with Some h => h | None => [] end in
  let asked := (length (filter (button inp) question_keys) +
                match chat_input inp with Some (String _ _) => 1 | _ => 0 end)%nat in
  fst (show_personalize inp w) =
    (if button inp "🗑️ Clear Chat" then Raise RerunException else Ok tt) /\
  risk_score s' = risk_score s /\
  symptoms s' = symptoms s /\
  tapping_data s' = tapping_data s /\
  report_generated s' = report_generated s /\
  (button inp "🗑️ Clear Chat" = true -> messages s' = Some []) /\
  (button inp "🗑️ Clear Chat" = false ->
   exists added,
     messages s' = Some (old ++ added) /\ length added = (2 * asked)%nat).
Proof.
  intros Hgen s s' old asked. subst s s'.
  destruct (show_personalize_run rt inp w Hgen) as [h [w' [Hrun [Hs Hh]]]].
  rewrite Hrun. cbn [fst snd]. rewrite Hs.
  repeat split.
  - intros Hclear. rewrite Hclear in Hh. now subst h.
  - intros Hclear. rewrite Hclear in Hh.
    destruct Hh as [added [-> Hlen]]. now exists added.
Qed.

Lemma assistant_page_effect_witness :
  fst (show_personalize (@quiet_inputs toy_runtime tt)
         {| session_state := set_report_generated true
                               (set_risk_score (Some (PyInt 20)) initial_session);
            random := random fresh_world; page := [] |}) = Ok tt.
Proof.
  exact (proj1 (assistant_page_effect toy_runtime (@quiet_inputs toy_runtime tt)
                  {| session_state := set_report_generated true
                                        (set_risk_score (Some (PyInt 20)) initial_session);
                     random := random fresh_world; page := [] |} eq_refl)).
Defined.

(** ** All the pages, in any order *)

Lemma show_personalize_gate (rt : Runtime) (inp : inputs) (w : world) :
  report_generated (session_state w) = false ->
  session_state (snd (show_personalize inp w)) = session_state w.
Proof.
  intros Hgen.
  unfold show_personalize, bind, emit, get_session.
  cbn [session_state random page]. rewrite Hgen. reflexivity.
Qed.

Lemma after_detect_ok (rt : Runtime) (inp : inputs) (s : session) :
  session_ok s -> session_ok (after_detect inp s).
Proof.
  intros [Hkeys Hans Hscore Hrep Hhist].
  assert (Hk : keys (symptoms (after_detect inp s)) = catalog_ids).
  { rewrite after_detect_symptoms. now apply answer_all_keys. }
  constructor.
  - now right.
  - intros v. rewrite after_detect_symptoms. now apply answer_all_values.
  - intros v. unfold after_detect.
    destruct (button inp "Analyze Results") eqn:Hb.
    + intros [= <-].
      apply composite_score_bounds.
      * unfold well_formed.
        replace (keys _) with catalog_ids; [apply catalog_ids_distinct|].
        symmetry. destruct (button inp "start_tapping"); cbn [symptoms];
          now apply answer_all_keys.
      * replace (keys _) with catalog_ids; [apply incl_refl|].
        symmetry. destruct (button inp "start_tapping"); cbn [symptoms];
          now apply answer_all_keys.
    + destruct (button inp "start_tapping"); apply Hscore.
  - unfold after_detect.
    destruct (button inp "Analyze Results"), (button inp "start_tapping");
      cbn; try discriminate; exact Hrep.
  - unfold after_detect.
    destruct (button inp "Analyze Results"), (button inp "start_tapping");
      exact Hhist.
Qed.

Lemma main_keeps_ok (rt : Runtime) (choice : string) (inp : inputs) (w : world) :
  session_ok (session_state w) ->
  session_ok (session_state (snd (main choice inp w))).
Proof.
  intros Hok. unfold main.
  destruct (String.eqb choice "Home"); [exact Hok|].
  destruct (String.eqb choice "Detect").
  { destruct (show_detect_run rt inp w) as [pg ->]. cbn [snd session_state].
    now apply after_detect_ok. }
  destruct (String.eqb choice "Connect").
  { destruct (show_connect_run rt inp w) as [pg ->]. cbn [snd session_state].
    destruct (risk_score (session_state w)) eqn:Hrs; [|exact Hok].
    destruct Hok as [Hkeys Hans Hscore Hrep Hhist].
    constructor; page_step.
    - exact Hkeys.
    - exact Hans.
    - exact Hscore.
    - intros _. rewrite Hrs. discriminate.
    - reflexivity. }
  destruct (String.eqb choice "Personalize").
  { destruct (report_generated (session_state w)) eqn:Hgen.
    - destruct (show_personalize_run rt inp w Hgen) as [h [w' [-> [Hs _]]]].
      cbn [snd]. rewrite Hs.
      destruct Hok as [Hkeys Hans Hscore Hrep Hhist].
      constructor; page_step.
      + exact Hkeys.
      + exact Hans.
      + exact Hscore.
      + exact Hrep.
      + intros _. exact Hgen.
    - now rewrite show_personalize_gate. }
  destruct (String.eqb choice "About"); exact Hok.
Qed.

(** Through any sequence of page visits, with any widgets pressed, a
    session that starts as the script creates it stays well formed: the
    answers are those of the catalog, in its order, each Yes or No; a
    stored risk score lies in [0, 100]; a report is marked generated only
    when a score exists; and a chat history exists only once a report was
    generated. *)
Theorem session_stays_ok (rt : Runtime) (runs : list (string * inputs)) :
  session_ok initial_session /\
  (forall w, session_ok (session_state w) ->
             session_ok (session_state (visits runs w))) /\
  session_ok (session_state (visits runs fresh_world)).
Proof.
  assert (Hinit : session_ok initial_session).
  { constructor; cbn; try tauto; discriminate. }
  assert (Hstep : forall w, session_ok (session_state w) ->
                            session_ok (session_state (visits runs w))).
  { induction runs as [|[choice inp] runs IH]; intros w Hok; cbn [visits].
    - exact Hok.
    - apply IH. unfold rerun. now apply main_keeps_ok. }
  split; [exact Hinit|]. split; [exact Hstep|].
  apply Hstep. exact Hinit.
Qed.

Lemma session_stays_ok_witness :
  session_ok
    (session_state
       (@visits toy_runtime
          [ ("Detect", @quiet_inputs toy_runtime tt);
            ("Connect", @quiet_inputs toy_runtime tt) ]
          {| session_state := set_risk_score (Some (PyInt 30)) initial_session;
             random := random fresh_world; page := [] |})).
Proof.
  apply (proj1 (proj2 (session_stays_ok toy_runtime
                         [ ("Detect", @quiet_inputs toy_runtime tt);
                           ("Connect", @quiet_inputs toy_runtime tt) ]))).
  constructor; cbn; try tauto; try discriminate.
  intros v [= <-]. simpl. lra.
Defined.


(** A query handled on a session without a history fails with the
    attribute error of the missing [messages], after the query was shown
    and before the responder ran: the session and the generator are
    untouched.  (The assistant page creates the history first, which is
    why it never ends this way.) *)
Theorem query_without_history (query : string) (w : world) :
  messages (session_state w) = None ->
  handle_user_query query w =
    (Raise (AttributeError "messages"),
     {| session_state := session_state w;
        random := random w;
        page := page w ++ [ChatMessage "user" query] |}).
Proof.
  intros Hnone.
  unfold handle_user_query, bind, emit, append_message, bind, get_session, raise.
  cbn [session_state random page]. rewrite Hnone. reflexivity.
Qed.

Lemma query_without_history_witness :
  fst (handle_user_query "How accurate is this assessment?" fresh_world) =
  Raise (AttributeError "messages").
Proof.
  rewrite (query_without_history "How accurate is this assessment?"
             fresh_world eq_refl).
  reflexivity.
Defined.

Lemma positive_symptoms_length (d : dict string) :
  length (positive_symptoms d) = Spec.yes_count d.
Proof.
  induction d as [|[k v] d IH]; [reflexivity|].
  rewrite positive_symptoms_cons, yes_count_cons.
  destruct (String.eqb v "Yes"); cbn [length]; rewrite IH; reflexivity.
Qed.

(** The score and the text report count the same answers: without taps
    the stored score is ten times the number of symptoms that the report
    lists, for every dict of answers. *)
Theorem score_counts_listed_symptoms (symptoms : dict string) :
  analyze_results symptoms None =
  PyInt (10 * Z.of_nat (length (positive_symptoms symptoms))).
Proof.
  unfold analyze_results. cbn [py_mul].
  rewrite symptom_count_yes_count, positive_symptoms_length.
  f_equal. lia.
Qed.


